(** * Customer revenue dashboard: loader, ranking, segmentation, outliers

    A shallow embedding of [main.py].  The script is a pipeline of pandas
    calls over one data frame; each call is embedded as the list function
    it computes, in the order the script performs them.

    Conventions of the model.
    - A text is a [string] of bytes in UTF-8, as the script's literals are.
      Whitespace is that of Python's [str.isspace], each character by its
      bytes.  Case folding is that of the ASCII range: the names the
      script compares against ("name", "sales", "sales with tax",
      "total") are ASCII and no character outside ASCII lowers to one of
      their letters.  The labels of a [DataFrame] are texts; [load_sheet]
      covers a header that holds another kind of cell.
    - A number is a rational [Q]: arithmetic on finite values is exact and
      the rounding of float64 is not modelled; a statement that would not
      survive rounding is made for whole numbers ([whole_valued]), whose
      sums float64 forms exactly.  A missing value (pandas' NaN) is
      [None] in a numeric column and [NA] in a cell.  The result of a
      division is a [pct], which also carries the two infinities and NaN
      that a division by zero produces.
    - [load_frame] is [load_data] with the frame it returns, its columns
      in the order of the sheet; [load_data] reads that frame by label, as
      every later line of the script does.
    - [pandas.to_numeric] is a library function: the loader takes it as a
      parameter [to_numeric], a total function from text to a value or
      missing.  [parse_decimal] is the instance used on concrete inputs.
    - [DataFrame.sort_values] is requested with its default [kind]; the
      model fixes what every kind guarantees ([is_sort_values]: a
      permutation, ordered by the key, missing keys last) and leaves the
      order among equal keys open. *)

From Stdlib Require Import List Bool Arith Lia String Ascii ZArith QArith Qabs Lqa.
From Stdlib Require Import Permutation Sorting.Sorted.
Import ListNotations.

Local Open Scope string_scope.
Local Open Scope list_scope.

(** ** Text *)

Module Text.

(** [c.lower()] on one character of the ASCII range. *)
Definition lower_ascii (c : ascii) : ascii :=
  let n := nat_of_ascii c in
  if (65 <=? n)%nat && (n <=? 90)%nat then ascii_of_nat (n + 32) else c.

(** [s.lower()]. *)
Fixpoint lower (s : string) : string :=
  match s with
  | EmptyString => EmptyString
  | String c s' => String (lower_ascii c) (lower s')
  end.

(** The whitespace characters of one byte (tab, line feed, vertical tab,
    form feed, carriage return, the four separators, space). *)
Definition is_space (c : ascii) : bool :=
  let n := nat_of_ascii c in
  ((9 <=? n)%nat && (n <=? 13)%nat) || ((28 <=? n)%nat && (n <=? 32)%nat).

(** The other whitespace characters of Python's [str.isspace], by their
    bytes in UTF-8: U+0085, U+00A0, U+1680, U+2000 to U+200A, U+2028,
    U+2029, U+202F, U+205F and U+3000. *)
Definition wide_spaces : list (list nat) :=
  [[194; 133]; [194; 160]; [225; 154; 128];
   [226; 128; 128]; [226; 128; 129]; [226; 128; 130]; [226; 128; 131];
   [226; 128; 132]; [226; 128; 133]; [226; 128; 134]; [226; 128; 135];
   [226; 128; 136]; [226; 128; 137]; [226; 128; 138];
   [226; 128; 168]; [226; 128; 169]; [226; 128; 175];
   [226; 129; 159]; [227; 128; 128]]%nat.

(** Whether [s] starts with the bytes [codes]. *)
Fixpoint starts_with (codes : list nat) (s : string) : bool :=
  match codes, s with
  | [], _ => true
  | _ :: _, EmptyString => false
  | n :: codes', String c s' => Nat.eqb (nat_of_ascii c) n && starts_with codes' s'
  end.

(** The number of bytes of the whitespace character of [table] that [s]
    starts with, 0 when it starts with none. *)
Fixpoint wide_space_length (table : list (list nat)) (s : string) : nat :=
  match table with
  | [] => 0%nat
  | codes :: table' =>
      if starts_with codes s then List.length codes
      else wide_space_length table' s
  end.

(** The scan that drops leading whitespace; [skip] counts the bytes of a
    matched character still to be passed over. *)
Fixpoint lstrip_go (table : list (list nat)) (skip : nat) (s : string) : string :=
  match s with
  | EmptyString => EmptyString
  | String c s' =>
      match skip with
      | S k => lstrip_go table k s'
      | O =>
          if is_space c then lstrip_go table 0 s'
          else match wide_space_length table s with
               | O => s
               | S k => lstrip_go table k s'
               end
      end
  end.

Fixpoint reverse_onto (s acc : string) : string :=
  match s with
  | EmptyString => acc
  | String c s' => reverse_onto s' (String c acc)
  end.

Definition reverse (s : string) : string := reverse_onto s EmptyString.

(** [s.lstrip()]. *)
Definition lstrip (s : string) : string := lstrip_go wide_spaces 0 s.

(** [s.rstrip()]: the same scan from the end, each character's bytes read
    backwards. *)
Definition rstrip (s : string) : string :=
  reverse (lstrip_go (map (@rev nat) wide_spaces) 0 (reverse s)).

(** [s.strip()]. *)
Definition strip (s : string) : string := rstrip (lstrip s).

(** The blanks of the ASCII range only, for the reader of decimal
    literals. *)
Fixpoint lstrip_ascii (s : string) : string :=
  match s with
  | EmptyString => EmptyString
  | String c s' => if is_space c then lstrip_ascii s' else s
  end.

Fixpoint rstrip_ascii (s : string) : string :=
  match s with
  | EmptyString => EmptyString
  | String c s' =>
      match rstrip_ascii s' with
      | EmptyString => if is_space c then EmptyString else String c EmptyString
      | r => String c r
      end
  end.

Definition strip_ascii (s : string) : string := rstrip_ascii (lstrip_ascii s).

(** [replace_go old new skip s]: the scan of [s.replace(old, new)], left
    to right over non-overlapping occurrences; [skip] counts the
    characters of a matched occurrence still to be passed over. *)
Fixpoint replace_go (old new : string) (skip : nat) (s : string) : string :=
  match s with
  | EmptyString => EmptyString
  | String c s' =>
      match skip with
      | S k => replace_go old new k s'
      | O =>
          if prefix old s
          then new ++ replace_go old new (String.length old - 1) s'
          else String c (replace_go old new 0 s')
      end
  end.

(** [s.replace(old, new)] for a non-empty [old]. *)
Definition replace (old new s : string) : string := replace_go old new 0 s.

(** Whether the character [c] occurs in [s]. *)
Fixpoint has_char (c : ascii) (s : string) : bool :=
  match s with
  | EmptyString => false
  | String c' s' => Ascii.eqb c' c || has_char c s'
  end.

End Text.

(** ** Data frames *)

(** A cell of the sheet as [read_excel] delivers it: empty, text, or a
  number. *)
Inductive cell : Type :=
| NA
| Str (s : string)
| Num (q : Q).

(** A frame: the column labels, and the rows, each row holding one cell
  per label (a row shorter than the header reads as padded with [NA]). *)
Record DataFrame : Type := mkFrame {
  columns : list string;
  rows : list (list cell)
}.

(** What [load_data] can end with: the cleaned table, the format error
  ([st.error] followed by [st.stop()], which ends the run before anything
  else is rendered), or an exception pandas raises and the script does not
  handle. *)
Inductive outcome (A : Type) : Type :=
| Loaded (a : A)
| FormatError
| PandasError.
Arguments Loaded {A} a.
Arguments FormatError {A}.
Arguments PandasError {A}.

Definition bind {A B} (m : outcome A) (k : A -> outcome B) : outcome B :=
  match m with
  | Loaded a => k a
  | FormatError => FormatError
  | PandasError => PandasError
  end.

Notation "x <- m ;; k" := (bind m (fun x => k))
  (at level 61, m at next level, right associativity).

(** One row of the cleaned table. *)
Record CustomerRecord : Type := mkRecord {
  name : cell;
  sales : option Q;
  sales_with_tax : option Q
}.

Module Frame.

(** The positions of [label] among the column labels. *)
Fixpoint positions (label : string) (cols : list string) (i : nat) : list nat :=
  match cols with
  | [] => []
  | c :: cols' =>
      if String.eqb c label then i :: positions label cols' (S i)
      else positions label cols' (S i)
  end.

(** [df[label]] where the script goes on to use it as a Series.  With the
    label absent pandas raises KeyError; with the label on several
    columns [df[label]] is a frame, which has no [.str] accessor
    (AttributeError). *)
Definition get_series (df : DataFrame) (label : string) : outcome nat :=
  match positions label (columns df) 0 with
  | [i] => Loaded i
  | _ => PandasError
  end.

(** The cell of a row under column [i]. *)
Definition at_col (i : nat) (row : list cell) : cell := nth i row NA.

(** A row with the cell under column [i] replaced by its image. *)
Fixpoint update (i : nat) (f : cell -> cell) (row : list cell) : list cell :=
  match i, row with
  | O, [] => [f NA]
  | O, c :: r => f c :: r
  | S k, [] => NA :: update k f []
  | S k, c :: r => c :: update k f r
  end.

(** [df[label] = f(df[label])], cell by cell. *)
Definition assign (i : nat) (f : cell -> cell) (df : DataFrame) : DataFrame :=
  mkFrame (columns df) (map (update i f) (rows df)).

(** [df[mask]] for the boolean mask [p] computed from column [i]. *)
Definition select (i : nat) (p : cell -> bool) (df : DataFrame) : DataFrame :=
  mkFrame (columns df) (filter (fun row => p (at_col i row)) (rows df)).

(** The dtype of a column as [read_excel] infers it: [object] when the
    frame has no row or the column holds some text; a numeric dtype when
    every cell is a number or empty.  The [.str] accessor exists on
    [object] columns only. *)
Definition is_text (c : cell) : bool :=
  match c with Str _ => true | _ => false end.

Definition object_dtype (i : nat) (df : DataFrame) : bool :=
  match rows df with
  | [] => true
  | _ => existsb (fun row => is_text (at_col i row)) (rows df)
  end.

End Frame.

(** ** Numbers read from text *)

Module Numeric.

Definition digit (c : ascii) : option Z :=
  let n := nat_of_ascii c in
  if (48 <=? n)%nat && (n <=? 57)%nat then Some (Z.of_nat (n - 48)) else None.

(** Digits with at most one decimal point: [m] is the mantissa read so
    far, [scale] the power of ten of the fraction, [dot] whether the point
    was passed, [any] whether a digit was seen. *)
Fixpoint digits (s : string) (m : Z) (scale : positive) (dot any : bool)
  : option Q :=
  match s with
  | EmptyString => if any then Some (Qred (m # scale)) else None
  | String c s' =>
      match digit c with
      | Some d => digits s' (10 * m + d) (if dot then 10 * scale else scale)%positive dot true
      | None =>
          if Ascii.eqb c "."%char && negb dot then digits s' m scale true any
          else None
      end
  end.

(** A reader of plain decimal literals (optional sign, digits, optional
    fraction, surrounding blanks); any other text is not a number. *)
Definition parse_decimal (s : string) : option Q :=
  match Text.strip_ascii s with
  | String "-"%char s' => option_map Qopp (digits s' 0 1 false false)
  | String "+"%char s' => digits s' 0 1 false false
  | s' => digits s' 0 1 false false
  end.

End Numeric.

(** ** Loader / cleaner ([load_data], lines 15-50) *)

Module Loader.

Import Text Frame.

(** Line 21. *)
Definition expected_columns : list string :=
  ["Customer Name"; "Sales"; "Sales With Tax"].

(** A Python [dict] from labels to labels: the latest binding of a key is
    the one looked up. *)
Definition dict : Type := list (string * string).

Definition dict_set (d : dict) (k v : string) : dict := (k, v) :: d.

Fixpoint dict_get (d : dict) (k : string) : option string :=
  match d with
  | [] => None
  | (k', v) :: d' => if String.eqb k' k then Some v else dict_get d' k
  end.

(** Lines 25-32: one pass over the labels. *)
Definition column_mapping (cols : list string) : dict :=
  fold_left
    (fun m col =>
       if String.eqb (lower col) "name" then dict_set m col "Customer Name"
       else if String.eqb (lower col) "sales" then dict_set m col "Sales"
       else if String.eqb (lower col) "sales with tax"
            then dict_set m col "Sales With Tax"
       else m)
    cols [].

(** Line 34: [df.rename(columns=column_mapping)]; a label without a
    binding stays. *)
Definition rename (m : dict) (df : DataFrame) : DataFrame :=
  mkFrame
    (map (fun c => match dict_get m c with Some c' => c' | None => c end)
         (columns df))
    (rows df).

(** [set(a) == set(b)] on lists of labels. *)
Definition subsetb (a b : list string) : bool :=
  forallb (fun x => existsb (String.eqb x) b) a.

Definition set_eqb (a b : list string) : bool :=
  subsetb a b && subsetb b a.

(** Line 49's mask on the name column: [.str.lower()] is missing on a
    cell that is not text, and a missing value differs from "total". *)
Definition not_total (c : cell) : bool :=
  match c with
  | Str s => negb (String.eqb (lower s) "total")
  | _ => true
  end.

(** Line 48's mask: [notna()]. *)
Definition notna (c : cell) : bool :=
  match c with NA => false | _ => true end.

(** A cleaned numeric cell as a value. *)
Definition value (c : cell) : option Q :=
  match c with Num q => Some q | _ => None end.

(** The column under [label] (the first one, if there are several). *)
Definition col_index (label : string) (h : list string) : nat :=
  hd 0%nat (positions label h 0).

Section WithParser.

(** [pd.to_numeric(text, errors="coerce")] on one text: the number it
    reads, or missing. *)
Variable to_numeric : string -> option Q.

(** Lines 43-46 on one cell.  [astype(str)] leaves a text as it is; it
    prints a number as a literal that holds neither the currency sign
    nor a comma and reads back as the same number, and an empty cell as
    "nan", which reads back as missing. *)
Definition clean_cell (c : cell) : cell :=
  match c with
  | Str s =>
      match to_numeric (replace "," "" (replace "₹" "" s)) with
      | Some q => Num q
      | None => NA
      end
  | Num q => Num q
  | NA => NA
  end.

(** Lines 16-50: the frame [load_data] returns, from the frame
    [pd.read_excel(file, skiprows=1)] gives.  Its columns stand in the
    order of the sheet, under their new labels. *)
Definition load_frame (df : DataFrame) : outcome DataFrame :=
  (* line 18 *)
  let df := mkFrame (map strip (columns df)) (rows df) in
  (* lines 25-34 *)
  let df := rename (column_mapping (columns df)) df in
  (* lines 37-39 *)
  if negb (set_eqb (columns df) expected_columns) then FormatError
  else
    (* lines 42-46, the loop over ["Sales", "Sales With Tax"] *)
    iS <- get_series df "Sales" ;;
    let df := assign iS clean_cell df in
    iT <- get_series df "Sales With Tax" ;;
    let df := assign iT clean_cell df in
    (* line 48; a boolean mask keeps the dtype of each column *)
    iN <- get_series df "Customer Name" ;;
    let has_str := object_dtype iN df in
    let df := select iN notna df in
    (* line 49 *)
    if negb has_str then PandasError
    else
      let df := select iN not_total df in
      (* line 50 *)
      Loaded df.

(** The rows of a frame as records, by the positions of the three
    columns. *)
Definition to_records (iN iS iT : nat) (df : DataFrame) : list CustomerRecord :=
  map (fun row => mkRecord (at_col iN row)
                           (value (at_col iS row))
                           (value (at_col iT row)))
      (rows df).

(** A cleaned frame read by its three labels, [df["Customer Name"]],
    [df["Sales"]] and [df["Sales With Tax"]]: the way every later line of
    the script reaches its cells. *)
Definition records (df : DataFrame) : list CustomerRecord :=
  to_records (col_index "Customer Name" (columns df))
             (col_index "Sales" (columns df))
             (col_index "Sales With Tax" (columns df))
             df.

(** [load_data] with its result read by label. *)
Definition load_data (df : DataFrame) : outcome (list CustomerRecord) :=
  df <- load_frame df ;;
  Loaded (records df).

End WithParser.

(** *** The loader row by row *)

(** The label a column ends with after lines 25-34. *)
Definition rename_label (c : string) : string :=
  if String.eqb (lower c) "name" then "Customer Name"
  else if String.eqb (lower c) "sales" then "Sales"
  else if String.eqb (lower c) "sales with tax" then "Sales With Tax"
  else c.

(** The labels of the frame when line 37 tests them. *)
Definition header (df : DataFrame) : list string :=
  map rename_label (map strip (columns df)).

(** The header names each required column once and nothing else. *)
Definition exact_header (h : list string) : bool :=
  set_eqb h expected_columns && Nat.eqb (List.length h) 3.

(** Lines 48-49 as one test on a row. *)
Definition keep_row (iN : nat) (row : list cell) : bool :=
  notna (at_col iN row) && not_total (at_col iN row).

(** Lines 42-46 on a row, read as a record. *)
Definition clean_row (to_numeric : string -> option Q) (iN iS iT : nat)
           (row : list cell) : CustomerRecord :=
  mkRecord (at_col iN row)
           (value (clean_cell to_numeric (at_col iS row)))
           (value (clean_cell to_numeric (at_col iT row))).

End Loader.

(** ** Ranking and pagination (lines 63-94) *)

Module Ranking.

(** The values of the "Sales With Tax" column. *)
Definition swt_column (df : list CustomerRecord) : list (option Q) :=
  map sales_with_tax df.

(** [Series.sum()]: missing values are skipped; the sum of nothing is 0. *)
Fixpoint series_sum (vals : list (option Q)) : Q :=
  match vals with
  | [] => 0
  | Some v :: vals' => v + series_sum vals'
  | None :: vals' => series_sum vals'
  end.

(** The number of values present. *)
Fixpoint series_count (vals : list (option Q)) : Z :=
  match vals with
  | [] => 0%Z
  | Some _ :: vals' => (1 + series_count vals')%Z
  | None :: vals' => series_count vals'
  end.

(** The order [sort_values("Sales With Tax", ascending=False)] puts the
    rows in: larger keys first, missing keys last. *)
Definition key_ge (a b : CustomerRecord) : Prop :=
  match sales_with_tax a, sales_with_tax b with
  | _, None => True
  | None, Some _ => False
  | Some x, Some y => y <= x
  end.

(** [s] is a frame the call may return on [df]: the rows of [df], ordered
    by the key.  The call leaves [kind] at its default, so nothing more is
    fixed about rows with equal keys. *)
Definition is_sort_values (df s : list CustomerRecord) : Prop :=
  Permutation df s /\ StronglySorted key_ge s.

Definition key_geb (a b : CustomerRecord) : bool :=
  match sales_with_tax a, sales_with_tax b with
  | _, None => true
  | None, Some _ => false
  | Some x, Some y => Qle_bool y x
  end.

Fixpoint insert_desc (r : CustomerRecord) (s : list CustomerRecord)
  : list CustomerRecord :=
  match s with
  | [] => [r]
  | x :: s' => if key_geb r x then r :: s else x :: insert_desc r s'
  end.

(** One frame the call may return: the one that keeps rows with equal keys
    in their order in [df] (insertion from the right). *)
Definition stable_sort_values (df : list CustomerRecord) : list CustomerRecord :=
  fold_right insert_desc [] df.

(** Line 71: [.head(20)]. *)
Definition top_20 (s : list CustomerRecord) : list CustomerRecord :=
  firstn 20%nat s.

(** Line 88. *)
Definition customers_per_page : nat := 20%nat.

(** Line 89. *)
Definition total_pages (scroll_df : list CustomerRecord) : nat :=
  ((List.length scroll_df + customers_per_page - 1) / customers_per_page)%nat.

(** [l.iloc[start:stop]] for [0 <= start <= stop]. *)
Definition iloc {A} (start stop : nat) (l : list A) : list A :=
  firstn (stop - start)%nat (skipn start l).

(** Lines 92-94, for the page number the widget returns (an integer that
    is at least 1). *)
Definition paginated_df (scroll_df : list CustomerRecord) (page_num : nat)
  : list CustomerRecord :=
  let start_idx := ((page_num - 1) * customers_per_page)%nat in
  let end_idx := (start_idx + customers_per_page)%nat in
  iloc start_idx end_idx scroll_df.

End Ranking.

(** ** Segmentation (lines 121-132) *)

(** A value of the "Cumulative %" column: a number, or what a division by
    zero leaves (an infinity, or NaN for 0/0 and for a missing operand). *)
Inductive pct : Type :=
| PNaN
| PosInf
| NegInf
| Fin (q : Q).

Inductive Segment : Type := A | B | C.

Module Segmentation.

Import Ranking.

(** [Series.cumsum()]: the running sum passes over a missing value and
    leaves it missing in the result. *)
Fixpoint cumsum_from (acc : Q) (vals : list (option Q)) : list (option Q) :=
  match vals with
  | [] => []
  | Some v :: vals' => Some (acc + v) :: cumsum_from (acc + v) vals'
  | None :: vals' => None :: cumsum_from acc vals'
  end.

Definition cumsum (vals : list (option Q)) : list (option Q) :=
  cumsum_from 0 vals.

(** [x / d] for a value [x] of a series and a number [d]. *)
Definition series_div (x : option Q) (d : Q) : pct :=
  match x with
  | None => PNaN
  | Some c =>
      if Qeq_bool d 0 then
        match (c ?= 0)%Q with
        | Gt => PosInf
        | Lt => NegInf
        | Eq => PNaN
        end
      else Fin (c / d)
  end.

(** [p * 100]. *)
Definition times100 (p : pct) : pct :=
  match p with
  | Fin q => Fin (q * 100)
  | other => other
  end.

(** Line 122: the "Cumulative %" column of the sorted frame. *)
Definition cumulative_percent (df_sorted : list CustomerRecord) : list pct :=
  map (fun c => times100 (series_div c (series_sum (swt_column df_sorted))))
      (cumsum (swt_column df_sorted)).

(** [p <= q] as Python compares floats: false on NaN. *)
Definition pct_le (p : pct) (q : Q) : bool :=
  match p with
  | Fin x => Qle_bool x q
  | NegInf => true
  | PosInf => false
  | PNaN => false
  end.

(** Lines 124-130, on the row's "Cumulative %". *)
Definition classify (cumulative : pct) : Segment :=
  if pct_le cumulative 80 then A
  else if pct_le cumulative 95 then B
  else C.

(** A row of [df_sorted] once lines 122 and 132 have added their columns. *)
Record SegmentedRecord : Type := mkSegmented {
  customer : CustomerRecord;
  cumulative : pct;
  segment : Segment
}.

(** Lines 121-132 on the sorted frame. *)
Definition segmentation (df_sorted : list CustomerRecord) : list SegmentedRecord :=
  map (fun rp => mkSegmented (fst rp) (snd rp) (classify (snd rp)))
      (combine df_sorted (cumulative_percent df_sorted)).



End Segmentation.

(** ** Metrics (lines 63-67) and outliers (lines 180-184) *)

Module Outliers.

Import Ranking.

(** [df['Sales With Tax'].sum()]. *)
Definition total_revenue (df : list CustomerRecord) : Q := series_sum (swt_column df).

(** [df['Sales With Tax'].mean()]: the sum over the number of values
    present. *)
Definition mean_revenue (df : list CustomerRecord) : pct :=
  Segmentation.series_div (Some (series_sum (swt_column df))) (inject_Z (series_count (swt_column df))).

(** [v < x] and [v > x] on a value of the column: false when it is
    missing. *)
Definition value_lt (v : option Q) (x : Z) : bool :=
  match v with
  | Some q => match (q ?= inject_Z x)%Q with Lt => true | _ => false end
  | None => false
  end.

Definition value_gt (v : option Q) (x : Z) : bool :=
  match v with
  | Some q => match (q ?= inject_Z x)%Q with Gt => true | _ => false end
  | None => false
  end.

(** Line 183, for the slider's integer. *)
Definition low_revenue_customers (df : list CustomerRecord)
           (low_revenue_threshold : Z) : list CustomerRecord :=
  filter (fun r => value_lt (sales_with_tax r) low_revenue_threshold) df.

(** Line 184. *)
Definition high_spike_customers (df : list CustomerRecord)
           (high_revenue_spike_threshold : Z) : list CustomerRecord :=
  filter (fun r => value_gt (sales_with_tax r) high_revenue_spike_threshold) df.

End Outliers.

(** * Notions and sample inputs used in the statements *)

Import Text Frame Loader Ranking Segmentation Outliers.

(** What lines 25-32 bind a label to, if anything. *)
Definition target (c : string) : option string :=
  if String.eqb (lower c) "name" then Some "Customer Name"
  else if String.eqb (lower c) "sales" then Some "Sales"
  else if String.eqb (lower c) "sales with tax" then Some "Sales With Tax"
  else None.

(** A sheet whose header spells the sales column twice, in two cases. *)
Definition two_sales_sheet : DataFrame :=
  mkFrame ["Customer Name"; "Sales"; "sales"; "Sales With Tax"]
          [[Str "Alice"; Num 100; Num 100; Num 120]].

(** A sheet with a currency text and a text that is no number. *)
Definition currency_sheet : DataFrame :=
  mkFrame ["Name"; "Sales"; "Sales With Tax"]
          [[Str "Alice"; Str "₹1,000"; Str "₹1,200.50"];
           [Str "Bob"; Str "n/a"; Num 60]].

(** The name a row is dropped for: missing, or "total" in any case. *)
Definition missing_or_total (c : cell) : Prop :=
  c = NA \/ exists s, c = Str s /\ lower s = "total".

(** The scenario of the specification. *)
Definition scenario_sheet : DataFrame :=
  mkFrame ["Customer Name"; "Sales"; "Sales With Tax"]
          [[Str "Alice"; Num 100; Num 120];
           [Str "Bob"; Num 50; Num 60];
           [Str "TOTAL"; Num 150; Num 180]].

Definition scenario_table : list CustomerRecord :=
  [mkRecord (Str "Alice") (Some 100) (Some 120);
   mkRecord (Str "Bob") (Some 50) (Some 60)].

(** A sheet with a row whose numbers cannot be read, a row without a name
    and a footer. *)
Definition ragged_sheet : DataFrame :=
  mkFrame [" name "; "SALES"; "Sales With Tax"]
          [[Str "Bob"; Str "n/a"; Str "?"];
           [NA; Num 3; Num 4];
           [Str "Alice"; Num 100; Str "₹1,200.50"];
           [Str "Total"; Num 103; Num 1204]].

(** A table of 45 customers, some with equal revenue, one without. *)
Definition forty_five : list CustomerRecord :=
  mkRecord (Str "none") None None
  :: map (fun n => mkRecord (Str "c") (Some 1) (Some (inject_Z (Z.of_nat (n / 2)))))
         (seq 0 44).


(** The sum of a list of numbers, as [series_sum] computes it. *)
Definition sumQ (qs : list Q) : Q := series_sum (map Some qs).

(** The running sums of a list of numbers, from [a]. *)
Fixpoint cumQ (a : Q) (qs : list Q) : list Q :=
  match qs with
  | [] => []
  | x :: qs' => (a + x) :: cumQ (a + x) qs'
  end.

(** Larger first. *)
Definition desc (qs : list Q) : Prop :=
  StronglySorted (fun x y => y <= x) qs.

(** Ten customers: one large, several equal, a refund, one without a
    value. *)
Definition ten_customers : list CustomerRecord :=
  [mkRecord (Str "a") (Some 10) (Some 10);
   mkRecord (Str "b") (Some 700) (Some 700);
   mkRecord (Str "c") None None;
   mkRecord (Str "d") (Some 100) (Some 100);
   mkRecord (Str "e") (Some 100) (Some 100);
   mkRecord (Str "f") (Some (-5)) (Some (-10));
   mkRecord (Str "g") (Some 50) (Some 50);
   mkRecord (Str "h") (Some 30) (Some 30);
   mkRecord (Str "i") (Some 10) (Some 10);
   mkRecord (Str "j") (Some 10) (Some 10)].


(** * Sheets whose header holds more than texts *)

(** A cell of the header row as [read_excel] makes it a label: a text, or
    another value (a number, a date). *)
Inductive label : Type :=
| LText (s : string)
| LOther.

(** A sheet as [read_excel] delivers it. *)
Record Sheet : Type := mkSheet {
  labels : list label;
  cells : list (list cell)
}.

(** The labels as texts, when all of them are. *)
Fixpoint texts (ls : list label) : option (list string) :=
  match ls with
  | [] => Some []
  | LText s :: ls' => option_map (cons s) (texts ls')
  | LOther :: _ => None
  end.

(** [load_data] on any sheet.  A label that is not a text has no
    [.str.strip()] (line 18 raises when no label is a text, and leaves the
    label missing otherwise) and no [.lower()] (line 27 raises on it):
    either way the run ends before line 37. *)
Definition load_sheet (to_numeric : string -> option Q) (sh : Sheet)
  : outcome (list CustomerRecord) :=
  match texts (labels sh) with
  | Some cols => load_data to_numeric (mkFrame cols (cells sh))
  | None => PandasError
  end.

(** * The remaining views of the script *)

(** Equality of two names as pandas counts distinct values: texts by their
    characters, numbers by their value; a missing name equals nothing. *)
Definition cell_eqb (a b : cell) : bool :=
  match a, b with
  | Str x, Str y => String.eqb x y
  | Num x, Num y => Qeq_bool x y
  | _, _ => false
  end.

(** [Series.nunique()]: the number of distinct values present. *)
Fixpoint nunique (vals : list cell) : nat :=
  match vals with
  | [] => 0%nat
  | c :: vals' =>
      if notna c && negb (existsb (cell_eqb c) vals')
      then S (nunique vals')
      else nunique vals'
  end.

(** Line 65: [df["Customer Name"].nunique()]. *)
Definition total_customers (df : list CustomerRecord) : nat :=
  nunique (map name df).

(** Line 101: the three numbers in the title of the paginated chart,
    "Customers (first) to (last) of (total)". *)
Definition title_numbers (scroll_df : list CustomerRecord) (page_num : nat)
  : nat * nat * nat :=
  let start_idx := ((page_num - 1) * customers_per_page)%nat in
  let end_idx := (start_idx + customers_per_page)%nat in
  ((start_idx + 1)%nat, Nat.min end_idx (List.length scroll_df),
   List.length scroll_df).




(** Two sheets hold the same cells under the three required labels, row
    by row, wherever their columns stand. *)
Definition same_cells (df df' : DataFrame) : Prop :=
  Forall2
    (fun row row' =>
       forall label, In label expected_columns ->
                     at_col (col_index label (header df)) row
                     = at_col (col_index label (header df')) row')
    (rows df) (rows df').

(** The scenario's sheet with its columns in another order and its labels
    in other spellings. *)
Definition shuffled_sheet : DataFrame :=
  mkFrame [" sales "; "NAME"; "Sales With Tax"]
          [[Num 100; Str "Alice"; Num 120];
           [Num 50; Str "Bob"; Num 60];
           [Num 150; Str "TOTAL"; Num 180]].

(** A sheet with a serial-number column before the three required ones. *)
Definition numbered_sheet : DataFrame :=
  mkFrame ["S.No."; "Customer Name"; "Sales"; "Sales With Tax"]
          [[Num 1; Str "Alice"; Num 100; Num 120]].

(** The label [x], stripped, is one of the spellings the loader takes
    for the required label [label]: the label itself, or its short form
    in any letter case. *)
Definition spelled (x label : string) : Prop :=
  x = label
  \/ (label = "Customer Name" /\ lower x = "name")
  \/ (label = "Sales" /\ lower x = "sales")
  \/ (label = "Sales With Tax" /\ lower x = "sales with tax").

(** A table whose values with tax cancel out: a sale, its refund and a
    free sample. *)
Definition balanced_table : list CustomerRecord :=
  [mkRecord (Str "sale") (Some 5) (Some 5);
   mkRecord (Str "refund") (Some (-5)) (Some (-5));
   mkRecord (Str "sample") (Some 0) (Some 0)].

(** A sheet none of whose rows has a name. *)
Definition nameless_sheet : DataFrame :=
  mkFrame ["Customer Name"; "Sales"; "Sales With Tax"]
          [[NA; Num 100; Num 120];
           [NA; Num 50; Num 60]].

(** A sheet whose only customer is named by a number. *)
Definition numeric_names_sheet : DataFrame :=
  mkFrame ["Customer Name"; "Sales"; "Sales With Tax"]
          [[Num 7; Num 5; Num 6]].

(** The same customer beside one named by a text. *)
Definition mixed_names_sheet : DataFrame :=
  mkFrame ["Customer Name"; "Sales"; "Sales With Tax"]
          [[Num 7; Num 5; Num 6];
           [Str "Alice"; Num 100; Num 120]].

(** The values with tax of a table are whole numbers whose absolute
    values add up to less than 2 to the 53: on such a table every sum the
    program forms in float64, in whatever order, is the exact sum. *)
Definition whole_valued (df : list CustomerRecord) : Prop :=
  Forall (fun r => forall q, sales_with_tax r = Some q ->
                             exists z : Z, q == inject_Z z) df
  /\ series_sum (map (option_map Qabs) (swt_column df)) < 9007199254740992.

(** * Properties *)

(** ** The header *)

Lemma dict_get_fold_step (cols : list string) (acc : dict) (c : string) :
  dict_get
    (fold_left
       (fun m col =>
          if String.eqb (lower col) "name" then dict_set m col "Customer Name"
          else if String.eqb (lower col) "sales" then dict_set m col "Sales"
          else if String.eqb (lower col) "sales with tax"
               then dict_set m col "Sales With Tax"
          else m) cols acc) c
  = if existsb (String.eqb c) cols
    then match target c with Some v => Some v | None => dict_get acc c end
    else dict_get acc c.
Proof.
  revert acc. induction cols as [|a cols IH]; intros acc; [reflexivity|].
  cbn [fold_left existsb]. rewrite IH. clear IH.
  destruct (String.eqb_spec c a) as [->|Hne].
  - cbn [orb]. unfold target.
    destruct (String.eqb (lower a) "name"); cbn [dict_get dict_set];
      [rewrite String.eqb_refl; destruct (existsb _ cols); reflexivity|].
    destruct (String.eqb (lower a) "sales"); cbn [dict_get dict_set];
      [rewrite String.eqb_refl; destruct (existsb _ cols); reflexivity|].
    destruct (String.eqb (lower a) "sales with tax"); cbn [dict_get dict_set];
      [rewrite String.eqb_refl; destruct (existsb _ cols); reflexivity|].
    destruct (existsb _ cols); reflexivity.
  - cbn [orb].
    assert (Hd : forall v, dict_get (dict_set acc a v) c = dict_get acc c).
    { intros v. cbn [dict_get dict_set].
      destruct (String.eqb_spec a c); [congruence|reflexivity]. }
    destruct (String.eqb (lower a) "name"); [rewrite Hd; reflexivity|].
    destruct (String.eqb (lower a) "sales"); [rewrite Hd; reflexivity|].
    destruct (String.eqb (lower a) "sales with tax"); [rewrite Hd; reflexivity|].
    reflexivity.
Qed.

Lemma existsb_eqb_In (c : string) (cols : list string) :
  In c cols -> existsb (String.eqb c) cols = true.
Proof.
  intros H. apply existsb_exists. exists c. split; [exact H|apply String.eqb_refl].
Qed.

(** Lines 25-34 rename label by label. *)
Lemma columns_rename (cols : list string) (rws : list (list cell)) :
  columns (rename (column_mapping cols) (mkFrame cols rws)) = map rename_label cols.
Proof.
  unfold rename, column_mapping. cbn [columns].
  apply map_ext_in. intros c Hc.
  rewrite dict_get_fold_step, (existsb_eqb_In c cols Hc).
  unfold target, rename_label. cbn [dict_get].
  destruct (String.eqb (lower c) "name"); [reflexivity|].
  destruct (String.eqb (lower c) "sales"); [reflexivity|].
  destruct (String.eqb (lower c) "sales with tax"); reflexivity.
Qed.

Lemma at_col_update (i j : nat) (f : cell -> cell) (row : list cell) :
  at_col j (update i f row)
  = if Nat.eqb i j then f (at_col i row) else at_col j row.
Proof.
  unfold at_col. revert j row.
  assert (Hnil : forall k, nth k (@nil cell) NA = NA) by (intros [|k]; reflexivity).
  induction i as [|i IH]; intros j row; destruct row as [|c row]; destruct j as [|j];
    cbn [update nth Nat.eqb]; rewrite ?IH, ?Hnil; try reflexivity;
    destruct j; reflexivity.
Qed.

Lemma in_expected (x : string) :
  existsb (String.eqb x) expected_columns = true ->
  x = "Customer Name" \/ x = "Sales" \/ x = "Sales With Tax".
Proof.
  cbn [existsb expected_columns]. intros H.
  repeat (apply orb_true_iff in H; destruct H as [H|H]);
    try (apply String.eqb_eq in H; auto); discriminate.
Qed.

(** An exact header holds each required label at one position, and the
    three positions differ. *)
Lemma exact_header_positions (h : list string) :
  exact_header h = true ->
  positions "Customer Name" h 0 = [col_index "Customer Name" h]
  /\ positions "Sales" h 0 = [col_index "Sales" h]
  /\ positions "Sales With Tax" h 0 = [col_index "Sales With Tax" h]
  /\ col_index "Customer Name" h <> col_index "Sales" h
  /\ col_index "Customer Name" h <> col_index "Sales With Tax" h
  /\ col_index "Sales" h <> col_index "Sales With Tax" h.
Proof.
  intros H. pose proof H as H0. unfold exact_header in H.
  apply andb_true_iff in H. destruct H as [Hs Hl].
  apply Nat.eqb_eq in Hl.
  destruct h as [|x [|y [|z [|w h]]]]; try discriminate Hl.
  unfold set_eqb in Hs. apply andb_true_iff in Hs. destruct Hs as [Hs _].
  unfold subsetb in Hs. cbn [forallb] in Hs.
  apply andb_true_iff in Hs. destruct Hs as [Hx Hs].
  apply andb_true_iff in Hs. destruct Hs as [Hy Hs].
  apply andb_true_iff in Hs. destruct Hs as [Hz _].
  apply in_expected in Hx, Hy, Hz.
  destruct Hx as [->|[->| ->]]; destruct Hy as [->|[->| ->]];
    destruct Hz as [->|[->| ->]];
    vm_compute in H0; try discriminate H0;
    vm_compute; repeat split; discriminate.
Qed.

(** ** The loader *)

Section LoaderFacts.

Variable to_numeric : string -> option Q.

Lemma object_dtype_update (i j : nat) (f : cell -> cell) (h h' : list string)
      (rws : list (list cell)) :
  i <> j ->
  object_dtype j (mkFrame h (map (update i f) rws)) = object_dtype j (mkFrame h' rws).
Proof.
  intros Hij. unfold object_dtype. cbn [rows].
  apply Nat.eqb_neq in Hij.
  assert (He : existsb (fun row => is_text (at_col j row)) (map (update i f) rws)
               = existsb (fun row => is_text (at_col j row)) rws).
  { induction rws as [|r rws IH]; [reflexivity|].
    cbn [map existsb]. rewrite at_col_update, Hij, IH. reflexivity. }
  destruct rws as [|r rws]; [reflexivity|]. exact He.
Qed.

Lemma filter_map_update (i j : nat) (f : cell -> cell) (p : cell -> bool)
      (rws : list (list cell)) :
  i <> j ->
  filter (fun row => p (at_col j row)) (map (update i f) rws)
  = map (update i f) (filter (fun row => p (at_col j row)) rws).
Proof.
  intros Hij. apply Nat.eqb_neq in Hij.
  induction rws as [|r rws IH]; [reflexivity|].
  cbn [map filter]. rewrite at_col_update, Hij, IH.
  destruct (p (at_col j r)); reflexivity.
Qed.

(** On an exact header [load_frame] returns the kept rows, in the order
    of the sheet, with the two numeric columns cleaned, when the name
    column holds text, and raises otherwise. *)
Lemma load_frame_exact (df : DataFrame) :
  exact_header (header df) = true ->
  load_frame to_numeric df
  = if object_dtype (col_index "Customer Name" (header df)) df
    then Loaded
           (mkFrame (header df)
              (map (fun row =>
                      update (col_index "Sales With Tax" (header df))
                             (clean_cell to_numeric)
                             (update (col_index "Sales" (header df))
                                     (clean_cell to_numeric) row))
                   (filter (keep_row (col_index "Customer Name" (header df)))
                           (rows df))))
    else PandasError.
Proof.
  intros Hh.
  destruct (exact_header_positions _ Hh) as (PN & PS & PT & NS & NT & ST).
  unfold exact_header in Hh. apply andb_true_iff in Hh. destruct Hh as [Hset _].
  unfold load_frame, get_series, assign, select. cbn [columns rows].
  rewrite columns_rename. fold (header df).
  rewrite Hset. cbn [negb]. rewrite PS. cbn [bind]. rewrite PT. cbn [bind].
  rewrite PN. cbn [bind].
  set (iN := col_index "Customer Name" (header df)) in *.
  set (iS := col_index "Sales" (header df)) in *.
  set (iT := col_index "Sales With Tax" (header df)) in *.
  rewrite (object_dtype_update iT iN _ _ (header df)) by congruence.
  rewrite (object_dtype_update iS iN _ _ (columns df)) by congruence.
  replace (mkFrame (columns df) (rows (rename _ _))) with df
    by (destruct df; reflexivity).
  destruct (object_dtype iN df); cbn [negb]; [|reflexivity]. f_equal. f_equal.
  cbn [rows rename].
  rewrite !filter_map_update by congruence.
  rewrite !map_map.
  assert (Hf : forall l, filter (fun row => not_total (at_col iN row))
                  (filter (fun row => notna (at_col iN row)) l)
                = filter (keep_row iN) l).
  { induction l as [|r l IH]; [reflexivity|]. cbn [filter].
    rewrite <- IH. unfold keep_row.
    destruct (notna (at_col iN r)); cbn [filter andb]; reflexivity. }
  rewrite Hf. reflexivity.
Qed.

(** On an exact header [load_data] returns the kept rows, cleaned, in the
    order of the sheet, when the name column holds text, and raises
    otherwise. *)
Lemma load_data_exact (df : DataFrame) :
  exact_header (header df) = true ->
  load_data to_numeric df
  = if object_dtype (col_index "Customer Name" (header df)) df
    then Loaded
           (map (clean_row to_numeric
                           (col_index "Customer Name" (header df))
                           (col_index "Sales" (header df))
                           (col_index "Sales With Tax" (header df)))
                (filter (keep_row (col_index "Customer Name" (header df)))
                        (rows df)))
    else PandasError.
Proof.
  intros Hh.
  destruct (exact_header_positions _ Hh) as (PN & PS & PT & NS & NT & ST).
  unfold load_data. rewrite (load_frame_exact df Hh).
  destruct (object_dtype _ df); [|reflexivity]. cbn [bind]. f_equal.
  unfold records, to_records. cbn [columns rows].
  set (iN := col_index "Customer Name" (header df)) in *.
  set (iS := col_index "Sales" (header df)) in *.
  set (iT := col_index "Sales With Tax" (header df)) in *.
  rewrite map_map. apply map_ext. intros row. unfold clean_row.
  rewrite !at_col_update.
  assert (E1 : Nat.eqb iT iN = false) by (apply Nat.eqb_neq; congruence).
  assert (E2 : Nat.eqb iS iN = false) by (apply Nat.eqb_neq; congruence).
  assert (E3 : Nat.eqb iT iS = false) by (apply Nat.eqb_neq; congruence).
  assert (E4 : Nat.eqb iS iT = false) by (apply Nat.eqb_neq; congruence).
  rewrite E1, E2, E3, !Nat.eqb_refl, E4. reflexivity.
Qed.

Lemma load_data_rows (df : DataFrame) :
  exact_header (header df) = true ->
  object_dtype (col_index "Customer Name" (header df)) df = true ->
  load_data to_numeric df
  = Loaded
      (map (clean_row to_numeric
                      (col_index "Customer Name" (header df))
                      (col_index "Sales" (header df))
                      (col_index "Sales With Tax" (header df)))
           (filter (keep_row (col_index "Customer Name" (header df))) (rows df))).
Proof.
  intros Hh Hd. rewrite (load_data_exact df Hh), Hd. reflexivity.
Qed.

(** A header within the required labels is as long as the three labels
    occur in it. *)
Lemma positions_length (h : list string) (i : nat) :
  subsetb h expected_columns = true ->
  List.length h
  = (List.length (positions "Customer Name" h i)
     + List.length (positions "Sales" h i)
     + List.length (positions "Sales With Tax" h i))%nat.
Proof.
  revert i. induction h as [|a h IH]; intros i Hs; [reflexivity|].
  unfold subsetb in Hs. cbn [forallb] in Hs.
  apply andb_true_iff in Hs. destruct Hs as [Ha Hs].
  apply in_expected in Ha. cbn [positions List.length].
  rewrite (IH (S i) Hs).
  destruct Ha as [->|[->| ->]]; cbn; lia.
Qed.

(** Without an exact header [load_frame] returns no frame. *)
Lemma load_frame_inexact (df fr : DataFrame) :
  exact_header (header df) = false -> load_frame to_numeric df <> Loaded fr.
Proof.
  intros Hh. unfold load_frame, get_series, assign, select. cbn [columns rows].
  rewrite columns_rename. fold (header df).
  unfold exact_header in Hh.
  destruct (set_eqb (header df) expected_columns) eqn:Hset; cbn [negb];
    [|discriminate].
  cbn [andb] in Hh. apply Nat.eqb_neq in Hh.
  unfold set_eqb in Hset. apply andb_true_iff in Hset. destruct Hset as [Hsub _].
  pose proof (positions_length (header df) 0 Hsub) as Hl.
  destruct (positions "Sales" (header df) 0) as [|? [|? ?]]; cbn [bind];
    try discriminate.
  destruct (positions "Sales With Tax" (header df) 0) as [|? [|? ?]]; cbn [bind];
    try discriminate.
  destruct (positions "Customer Name" (header df) 0) as [|? [|? ?]]; cbn [bind];
    try discriminate.
  cbn in Hl. lia.
Qed.

(** Without an exact header [load_data] returns no table. *)
Lemma load_data_inexact (df : DataFrame) (t : list CustomerRecord) :
  exact_header (header df) = false -> load_data to_numeric df <> Loaded t.
Proof.
  intros Hh. unfold load_data.
  destruct (load_frame to_numeric df) as [fr| |] eqn:E; cbn [bind];
    try discriminate.
  exfalso. exact (load_frame_inexact df fr Hh E).
Qed.

Lemma load_frame_format_error (df : DataFrame) :
  load_frame to_numeric df = FormatError
  <-> set_eqb (header df) expected_columns = false.
Proof.
  unfold load_frame, get_series, assign, select. cbn [columns rows].
  rewrite columns_rename. fold (header df).
  destruct (set_eqb (header df) expected_columns); cbn [negb].
  - split; [|discriminate].
    destruct (positions "Sales" (header df) 0) as [|? [|? ?]]; cbn [bind];
      try discriminate.
    destruct (positions "Sales With Tax" (header df) 0) as [|? [|? ?]]; cbn [bind];
      try discriminate.
    destruct (positions "Customer Name" (header df) 0) as [|? [|? ?]]; cbn [bind];
      try discriminate.
    destruct (negb _); discriminate.
  - split; reflexivity.
Qed.

(** The format error is raised exactly when the set of labels differs
    from the required one. *)
Lemma load_data_format_error (df : DataFrame) :
  load_data to_numeric df = FormatError
  <-> set_eqb (header df) expected_columns = false.
Proof.
  rewrite <- load_frame_format_error. unfold load_data.
  destruct (load_frame to_numeric df); cbn [bind]; split; congruence.
Qed.

End LoaderFacts.

(** *** Column validation *)

(** C1 (the code departs from the claim).  On [two_sales_sheet] the set of
    labels after renaming is the required set, so line 37 lets the frame
    pass; "Sales" then labels two columns, [df["Sales"]] is a frame, and
    line 44 raises: the load neither succeeds nor ends with the format
    error. *)
Theorem load_data_two_sales_columns :
  set_eqb (header two_sales_sheet) expected_columns = true
  /\ forall to_numeric : string -> option Q,
       load_data to_numeric two_sales_sheet = PandasError.
Proof.
  split; [reflexivity|]. intros to_numeric. reflexivity.
Qed.

(** The outcomes of [load_data] by the header.  On a sheet whose labels
    are texts: the format error exactly when the set of labels, stripped
    and renamed, differs from the required one; a table exactly when the
    header is exact and the name column holds text; an exception of pandas
    otherwise.  On a sheet with a label that is not a text: an exception
    of pandas, never the format error. *)
Theorem load_data_outcomes (to_numeric : string -> option Q) (df : DataFrame) :
  (load_data to_numeric df = FormatError
   <-> set_eqb (header df) expected_columns = false)
  /\ ((exists t, load_data to_numeric df = Loaded t)
      <-> exact_header (header df) = true
          /\ object_dtype (col_index "Customer Name" (header df)) df = true)
  /\ (load_data to_numeric df = PandasError
      <-> set_eqb (header df) expected_columns = true
          /\ (exact_header (header df) = false
              \/ object_dtype (col_index "Customer Name" (header df)) df = false))
  /\ load_sheet to_numeric (mkSheet (map LText (columns df)) (rows df))
     = load_data to_numeric df
  /\ (forall sh, In LOther (labels sh) -> load_sheet to_numeric sh = PandasError).
Proof.
  assert (H1 : load_data to_numeric df = FormatError
               <-> set_eqb (header df) expected_columns = false)
    by apply load_data_format_error.
  assert (H2 : (exists t, load_data to_numeric df = Loaded t)
               <-> exact_header (header df) = true
                   /\ object_dtype (col_index "Customer Name" (header df)) df = true).
  { split.
    - intros [t Ht]. destruct (exact_header (header df)) eqn:Hh.
      + split; [reflexivity|]. rewrite (load_data_exact to_numeric df Hh) in Ht.
        destruct (object_dtype _ df); [reflexivity|discriminate Ht].
      + exfalso. exact (load_data_inexact to_numeric df t Hh Ht).
    - intros [Hh Hd]. eexists. apply load_data_rows; assumption. }
  split; [exact H1|]. split; [exact H2|]. split; [|split].
  - destruct (load_data to_numeric df) as [t| |] eqn:E.
    + split; [discriminate|]. intros [Hs [Hh|Hd]].
      * assert (Ht : exists t', Loaded t = Loaded t') by (exists t; reflexivity).
        apply H2 in Ht. destruct Ht as [Hh' _]. congruence.
      * assert (Ht : exists t', Loaded t = Loaded t') by (exists t; reflexivity).
        apply H2 in Ht. destruct Ht as [_ Hd']. congruence.
    + split; [discriminate|]. intros [Hs _].
      assert (Hf : set_eqb (header df) expected_columns = false)
        by (apply H1; reflexivity).
      congruence.
    + split; [|reflexivity]. intros _.
      destruct (set_eqb (header df) expected_columns) eqn:Hs.
      * split; [reflexivity|].
        destruct (exact_header (header df)) eqn:Hh; [|left; reflexivity].
        right. destruct (object_dtype _ df) eqn:Hd; [|reflexivity].
        assert (Ht : exists t, PandasError = Loaded t) by (apply H2; split; reflexivity).
        destruct Ht as [t Ht]. discriminate Ht.
      * assert (Hf : @PandasError (list CustomerRecord) = FormatError)
          by (apply H1; reflexivity).
        discriminate Hf.
  - unfold load_sheet. cbn [labels cells].
    assert (Et : texts (map LText (columns df)) = Some (columns df)).
    { induction (columns df) as [|c l IH]; [reflexivity|].
      cbn [map texts]. rewrite IH. reflexivity. }
    rewrite Et. destruct df; reflexivity.
  - intros sh Hin. unfold load_sheet.
    assert (En : texts (labels sh) = None).
    { induction (labels sh) as [|l ls IH]; [destruct Hin|].
      destruct l as [x|]; [|reflexivity].
      destruct Hin as [Hin|Hin]; [discriminate Hin|].
      cbn [texts]. rewrite (IH Hin). reflexivity. }
    rewrite En. reflexivity.
Qed.

(** *** Numeric cleaning *)

Lemma replace_comma_free (s : string) :
  has_char ","%char (replace "," "" s) = false.
Proof.
  unfold replace. induction s as [|c s IH]; [reflexivity|].
  cbn [replace_go prefix String.length Nat.sub].
  destruct (ascii_dec ","%char c) as [<-|Hne].
  - destruct s; exact IH.
  - cbn [has_char]. rewrite IH.
    destruct (Ascii.eqb_spec c ","%char); [congruence|reflexivity].
Qed.

(** C8.  A text cell of a numeric column is read by [to_numeric] after
    the currency signs and the commas are taken out (no comma is left); a
    text that is not a number becomes a missing value of the row's record
    and the load still returns its table; "₹1,200.50" reads as 1200.50. *)
Theorem numeric_cleaning_coerces (to_numeric : string -> option Q) :
  (forall s : string,
      value (clean_cell to_numeric (Str s))
      = to_numeric (replace "," "" (replace "₹" "" s))
      /\ has_char ","%char (replace "," "" (replace "₹" "" s)) = false)
  /\ (forall (df : DataFrame) (row : list cell) (s : string),
        let iN := col_index "Customer Name" (header df) in
        let iS := col_index "Sales" (header df) in
        let iT := col_index "Sales With Tax" (header df) in
        exact_header (header df) = true ->
        object_dtype iN df = true ->
        In row (rows df) -> keep_row iN row = true ->
        (at_col iS row = Str s \/ at_col iT row = Str s) ->
        to_numeric (replace "," "" (replace "₹" "" s)) = None ->
        exists t r,
          load_data to_numeric df = Loaded t /\ In r t
          /\ name r = at_col iN row
          /\ (at_col iS row = Str s -> sales r = None)
          /\ (at_col iT row = Str s -> sales_with_tax r = None))
  /\ replace "," "" (replace "₹" "" "₹1,200.50") = "1200.50"
  /\ (exists q, clean_cell Numeric.parse_decimal (Str "₹1,200.50") = Num q
                /\ q == 1200.50)
  /\ load_data Numeric.parse_decimal currency_sheet
     = Loaded [mkRecord (Str "Alice") (Some 1000) (Some (2401 # 2));
               mkRecord (Str "Bob") None (Some 60)].
Proof.
  split; [|split; [|split; [|split]]].
  - intros s. split; [|apply replace_comma_free]. cbn [clean_cell].
    destruct (to_numeric _); reflexivity.
  - intros df row s iN iS iT Hh Hd Hin Hk Hs Hnone.
    exists (map (clean_row to_numeric iN iS iT) (filter (keep_row iN) (rows df))).
    exists (clean_row to_numeric iN iS iT row).
    split; [apply load_data_rows; assumption|].
    split; [apply in_map, filter_In; split; assumption|].
    split; [reflexivity|].
    split; intros E; cbn [clean_row sales sales_with_tax]; rewrite E;
      destruct Hs as [Hs|Hs]; cbn [clean_cell]; rewrite Hnone; reflexivity.
  - reflexivity.
  - eexists. split; [vm_compute; reflexivity|]. vm_compute. reflexivity.
  - vm_compute. reflexivity.
Qed.

(** *** Row filtering *)

Lemma keep_row_false_iff (iN : nat) (row : list cell) :
  keep_row iN row = false <-> missing_or_total (at_col iN row).
Proof.
  unfold keep_row, missing_or_total, notna, not_total.
  destruct (at_col iN row) as [|s|q]; cbn [andb negb].
  - split; [left; reflexivity|reflexivity].
  - destruct (String.eqb_spec (lower s) "total") as [E|E]; cbn [negb].
    + split; [intros _; right; exists s; split; [reflexivity|exact E]|reflexivity].
    + split; [discriminate|].
      intros [H|(s' & H & H')]; [discriminate|]. congruence.
  - split; [discriminate|].
    intros [H|(s' & H & _)]; discriminate.
Qed.

(** C9 (the code departs from the claim).  On [nameless_sheet] every row
    lacks a name, so dropping the rows without a name leaves the empty
    table; but the name column then holds no text, and line 49's [.str]
    raises: no table is returned.  On the scenario's sheet the load
    returns Alice and Bob, with total 180 and average 90. *)
Theorem load_data_no_text_name :
  exact_header (header nameless_sheet) = true
  /\ filter (keep_row (col_index "Customer Name" (header nameless_sheet)))
            (rows nameless_sheet) = []
  /\ (forall to_numeric : string -> option Q,
         load_data to_numeric nameless_sheet = PandasError)
  /\ (forall to_numeric : string -> option Q,
         load_data to_numeric scenario_sheet = Loaded scenario_table)
  /\ Outliers.total_revenue scenario_table == 180
  /\ exists m, Outliers.mean_revenue scenario_table = Fin m /\ m == 90.
Proof.
  split; [reflexivity|]. split; [reflexivity|].
  split; [intros to_numeric; reflexivity|].
  split; [intros to_numeric; reflexivity|].
  split; [vm_compute; reflexivity|].
  eexists. split; [vm_compute; reflexivity|]. vm_compute. reflexivity.
Qed.

(** C10 (the code departs from the claim).  The row [7, 5, 6] has a name
    that is present and is not "total".  Beside a row with a text name it
    is kept; alone, its column holds no text and line 49's [.str] raises:
    whether the row survives depends on the other rows of the sheet. *)
Theorem load_data_numeric_names :
  (forall to_numeric : string -> option Q,
      load_data to_numeric mixed_names_sheet
      = Loaded [mkRecord (Num 7) (Some 5) (Some 6);
                mkRecord (Str "Alice") (Some 100) (Some 120)])
  /\ (forall to_numeric : string -> option Q,
         load_data to_numeric numeric_names_sheet = PandasError).
Proof.
  split; intros to_numeric; reflexivity.
Qed.

(** Whenever [load_data] returns a table, the table is made of the rows of
    the sheet, in their order, without exactly those whose name is missing
    or is "total" in any letter case; each row kept has its name and its
    two numeric cells cleaned, whatever those cells hold, and a sales cell
    that cannot be read is a missing value of its record. *)
Theorem loaded_table_is_kept_rows
        (to_numeric : string -> option Q) (df : DataFrame)
        (t : list CustomerRecord) :
  load_data to_numeric df = Loaded t ->
  let iN := col_index "Customer Name" (header df) in
  let iS := col_index "Sales" (header df) in
  let iT := col_index "Sales With Tax" (header df) in
  t = map (clean_row to_numeric iN iS iT) (filter (keep_row iN) (rows df))
  /\ (forall row, In row (filter (keep_row iN) (rows df)) <->
                  In row (rows df) /\ ~ missing_or_total (at_col iN row))
  /\ map name t
     = filter (fun c => notna c && not_total c) (map (at_col iN) (rows df))
  /\ (forall row x,
         In row (rows df) -> ~ missing_or_total (at_col iN row) ->
         to_numeric (replace "," "" (replace "₹" "" x)) = None ->
         exists r,
           In r t /\ name r = at_col iN row
           /\ (at_col iS row = Str x -> sales r = None)
           /\ (at_col iT row = Str x -> sales_with_tax r = None)).
Proof.
  intros Ht iN iS iT.
  assert (Et : t = map (clean_row to_numeric iN iS iT)
                       (filter (keep_row iN) (rows df))).
  { destruct (exact_header (header df)) eqn:Hh.
    - rewrite (load_data_exact to_numeric df Hh) in Ht.
      destruct (object_dtype _ df); [|discriminate Ht].
      injection Ht as <-. reflexivity.
    - exfalso. exact (load_data_inexact to_numeric df t Hh Ht). }
  assert (Hkeep : forall row, In row (filter (keep_row iN) (rows df)) <->
                              In row (rows df) /\ ~ missing_or_total (at_col iN row)).
  { intros row. rewrite filter_In, <- keep_row_false_iff.
    destruct (keep_row iN row); intuition congruence. }
  split; [exact Et|]. split; [exact Hkeep|]. split.
  - rewrite Et, map_map. cbn [clean_row name]. clear.
    induction (rows df) as [|r l IH]; [reflexivity|].
    cbn [map filter]. unfold keep_row at 1.
    destruct (notna (at_col iN r) && not_total (at_col iN r));
      cbn [map]; rewrite IH; reflexivity.
  - intros row x Hin Hn Hnone.
    exists (clean_row to_numeric iN iS iT row).
    split; [rewrite Et; apply in_map, Hkeep; split; assumption|].
    split; [reflexivity|].
    split; intros E; cbn [clean_row sales sales_with_tax]; rewrite E;
      cbn [clean_cell]; rewrite Hnone; reflexivity.
Qed.

(** The theorem on [ragged_sheet]. *)
Lemma loaded_table_is_kept_rows_ragged :
  let t := [mkRecord (Str "Bob") None None;
            mkRecord (Str "Alice") (Some 100) (Some (2401 # 2))] in
  t = map (clean_row Numeric.parse_decimal 0 1 2)
          (filter (keep_row 0) (rows ragged_sheet))
  /\ (forall row, In row (filter (keep_row 0) (rows ragged_sheet)) <->
                  In row (rows ragged_sheet) /\ ~ missing_or_total (at_col 0 row))
  /\ map name t
     = filter (fun c => notna c && not_total c) (map (at_col 0) (rows ragged_sheet))
  /\ (forall row x,
         In row (rows ragged_sheet) -> ~ missing_or_total (at_col 0 row) ->
         Numeric.parse_decimal (replace "," "" (replace "₹" "" x)) = None ->
         exists r,
           In r t /\ name r = at_col 0 row
           /\ (at_col 1 row = Str x -> sales r = None)
           /\ (at_col 2 row = Str x -> sales_with_tax r = None)).
Proof.
  apply (loaded_table_is_kept_rows Numeric.parse_decimal ragged_sheet).
  vm_compute. reflexivity.
Defined.

(** ** Ranking and pagination *)

Lemma key_geb_ge (a b : CustomerRecord) : key_geb a b = true -> key_ge a b.
Proof.
  unfold key_geb, key_ge.
  destruct (sales_with_tax a), (sales_with_tax b); try easy.
  apply Qle_bool_imp_le.
Qed.

Lemma key_geb_false (a b : CustomerRecord) : key_geb a b = false -> key_ge b a.
Proof.
  unfold key_geb, key_ge.
  destruct (sales_with_tax a) as [x|], (sales_with_tax b) as [y|]; try easy.
  intros H. destruct (Qlt_le_dec x y) as [Hlt|Hle].
  - apply Qlt_le_weak. exact Hlt.
  - apply Qle_bool_iff in Hle. congruence.
Qed.

Lemma key_ge_trans (a b c : CustomerRecord) :
  key_ge a b -> key_ge b c -> key_ge a c.
Proof.
  unfold key_ge.
  destruct (sales_with_tax a), (sales_with_tax b), (sales_with_tax c); try easy.
  intros H1 H2. eapply Qle_trans; eassumption.
Qed.

Lemma insert_desc_perm (r : CustomerRecord) (s : list CustomerRecord) :
  Permutation (r :: s) (insert_desc r s).
Proof.
  induction s as [|x s IH]; cbn [insert_desc]; [reflexivity|].
  destruct (key_geb r x); [reflexivity|].
  rewrite perm_swap. apply perm_skip. exact IH.
Qed.

Lemma insert_desc_sorted (r : CustomerRecord) (s : list CustomerRecord) :
  StronglySorted key_ge s -> StronglySorted key_ge (insert_desc r s).
Proof.
  induction 1 as [|x s Hs IH Hx]; cbn [insert_desc].
  - constructor; constructor.
  - destruct (key_geb r x) eqn:E.
    + constructor; [constructor; assumption|].
      apply key_geb_ge in E. constructor; [exact E|].
      eapply Forall_impl; [|exact Hx].
      intros y Hy. eapply key_ge_trans; eassumption.
    + constructor; [exact IH|].
      eapply Permutation_Forall; [apply insert_desc_perm|].
      constructor; [apply key_geb_false; exact E|exact Hx].
Qed.

(** The stable order is one the call may return. *)
Lemma stable_sort_values_admissible (df : list CustomerRecord) :
  is_sort_values df (stable_sort_values df).
Proof.
  unfold is_sort_values, stable_sort_values.
  induction df as [|r df [IHp IHs]]; cbn [fold_right].
  - split; [reflexivity|constructor].
  - split.
    + etransitivity; [apply perm_skip; exact IHp|apply insert_desc_perm].
    + apply insert_desc_sorted. exact IHs.
Qed.

(** Consecutive slices of width [k] that cover a list rebuild it. *)
Lemma pages_concat {X : Type} (k : nat) (n : nat) (l : list X) :
  (0 < k)%nat -> (List.length l <= n * k)%nat ->
  List.concat (map (fun p => iloc ((p - 1) * k) ((p - 1) * k + k) l) (seq 1 n)) = l.
Proof.
  intros Hk. revert l. induction n as [|n IH]; intros l Hl.
  - destruct l; [reflexivity|cbn in Hl; lia].
  - cbn [seq map List.concat]. rewrite <- seq_shift, map_map.
    rewrite (map_ext_in _ (fun p => iloc ((p - 1) * k) ((p - 1) * k + k) (skipn k l))).
    + rewrite IH by (rewrite length_skipn; lia).
      unfold iloc. cbn [Nat.sub Nat.mul Nat.add skipn].
      replace (k - 0)%nat with k by lia. apply firstn_skipn.
    + intros p Hp. apply in_seq in Hp. unfold iloc.
      rewrite skipn_skipn.
      replace ((S p - 1) * k)%nat with ((p - 1) * k + k)%nat by nia.
      f_equal. lia.
Qed.

Lemma total_pages_ceil (s : list CustomerRecord) :
  (List.length s <= total_pages s * 20 < List.length s + 20)%nat.
Proof.
  unfold total_pages, customers_per_page.
  pose proof (Nat.div_mod_eq (List.length s + 20 - 1) 20) as E.
  pose proof (Nat.mod_upper_bound (List.length s + 20 - 1) 20) as U.
  lia.
Qed.

(** The order among rows with equal keys is not fixed by [is_sort_values]:
    both orders of two customers with the same value are admissible. *)
Lemma sort_values_ties_open :
  let a := mkRecord (Str "a") (Some 10) (Some 10) in
  let b := mkRecord (Str "b") (Some 10) (Some 10) in
  is_sort_values [a; b] [a; b] /\ is_sort_values [a; b] [b; a].
Proof.
  cbv zeta. unfold is_sort_values. split; split.
  - reflexivity.
  - repeat constructor; cbn; lra.
  - apply perm_swap.
  - repeat constructor; cbn; lra.
Qed.

(** The top-20 view is the first page. *)
Lemma top_20_is_first_page (s : list CustomerRecord) :
  top_20 s = paginated_df s 1.
Proof. reflexivity. Qed.

(** C2.  For every frame [s] the sort may return on the cleaned table
    [df]: the pages 1 to [total_pages], in order, concatenate to [s]; they
    hold the rows of [df], each as often as [df] does; and [total_pages]
    is the ceiling of the row count over 20. *)
Theorem pages_rebuild_sorted_table (df s : list CustomerRecord) :
  is_sort_values df s ->
  List.concat (map (paginated_df s) (seq 1 (total_pages s))) = s
  /\ Permutation df (List.concat (map (paginated_df s) (seq 1 (total_pages s))))
  /\ (List.length df <= total_pages s * 20 < List.length df + 20)%nat.
Proof.
  intros [Hp Hs].
  assert (E : List.concat (map (paginated_df s) (seq 1 (total_pages s))) = s).
  { unfold paginated_df. apply pages_concat; [unfold customers_per_page; lia|].
    pose proof (total_pages_ceil s). unfold customers_per_page. lia. }
  split; [exact E|]. split; [rewrite E; exact Hp|].
  rewrite (Permutation_length Hp). apply total_pages_ceil.
Qed.

(** The theorem on three pages: 45 customers in the stable order. *)
Lemma pages_rebuild_sorted_table_forty_five :
  List.concat (map (paginated_df (stable_sort_values forty_five))
              (seq 1 (total_pages (stable_sort_values forty_five))))
  = stable_sort_values forty_five
  /\ Permutation forty_five
       (List.concat (map (paginated_df (stable_sort_values forty_five))
                    (seq 1 (total_pages (stable_sort_values forty_five)))))
  /\ (List.length forty_five
      <= total_pages (stable_sort_values forty_five) * 20
      < List.length forty_five + 20)%nat.
Proof.
  apply (pages_rebuild_sorted_table forty_five (stable_sort_values forty_five)).
  apply stable_sort_values_admissible.
Defined.

(** ** Segmentation *)

Lemma classify_Fin (q : Q) :
  (classify (Fin q) = A <-> q <= 80)
  /\ (classify (Fin q) = B <-> 80 < q /\ q <= 95)
  /\ (classify (Fin q) = C <-> 95 < q).
Proof.
  unfold classify, pct_le.
  destruct (Qle_bool q 80) eqn:E80; destruct (Qle_bool q 95) eqn:E95;
    try (apply Qle_bool_iff in E80); try (apply Qle_bool_iff in E95);
    try (assert (~ q <= 80) by (rewrite <- Qle_bool_iff; congruence));
    try (assert (~ q <= 95) by (rewrite <- Qle_bool_iff; congruence));
    repeat split; intros; try discriminate; try reflexivity; try lra.
Qed.

(** C4.  The segment of every row of the segmented table is [classify]
    of its cumulative percent: A up to 80, B above 80 and up to 95, C above
    95 (and on a cumulative percent that is not a number); 80 is in A and
    80.01 in B. *)
Theorem classify_thresholds :
  (forall q : Q,
      (classify (Fin q) = A <-> q <= 80)
      /\ (classify (Fin q) = B <-> 80 < q /\ q <= 95)
      /\ (classify (Fin q) = C <-> 95 < q))
  /\ (forall p : pct, classify p = A \/ classify p = B \/ classify p = C)
  /\ classify PNaN = C /\ classify PosInf = C /\ classify NegInf = A
  /\ (forall s r, In r (segmentation s) -> segment r = classify (cumulative r))
  /\ classify (Fin 80) = A
  /\ classify (Fin 80.01) = B.
Proof.
  split; [exact classify_Fin|split; [|repeat split; try reflexivity]].
  - intros p. destruct (classify p); auto.
  - intros s r Hr. unfold segmentation in Hr. apply in_map_iff in Hr.
    destruct Hr as (rp & <- & _). reflexivity.
Qed.






Lemma div_le_pos (T a b : Q) : 0 < T -> a <= b -> a / T <= b / T.
Proof.
  intros HT H. unfold Qdiv. apply Qmult_le_compat_r; [exact H|].
  apply Qlt_le_weak, Qinv_lt_0_compat, HT.
Qed.







(** *** Running sums along a descending list *)

Lemma sumQ_app (u v : list Q) : sumQ (u ++ v) == sumQ u + sumQ v.
Proof.
  unfold sumQ. induction u as [|x u IH]; cbn [map app series_sum].
  - lra.
  - rewrite IH. lra.
Qed.

Lemma sumQ_nonneg (u : list Q) : Forall (fun x => 0 <= x) u -> 0 <= sumQ u.
Proof.
  unfold sumQ. induction 1 as [|x u Hx _ IH]; cbn [map series_sum]; lra.
Qed.

Lemma sumQ_nonpos (u : list Q) : Forall (fun x => x <= 0) u -> sumQ u <= 0.
Proof.
  unfold sumQ. induction 1 as [|x u Hx _ IH]; cbn [map series_sum]; lra.
Qed.


Lemma desc_app_r (u v : list Q) : desc (u ++ v) -> desc v.
Proof.
  unfold desc. induction u as [|x u IH]; cbn [app]; intros H; [exact H|].
  inversion H; subst. apply IH. assumption.
Qed.

Lemma desc_app_le (u v : list Q) (a b : Q) :
  desc (u ++ v) -> In a u -> In b v -> b <= a.
Proof.
  unfold desc. induction u as [|x u IH]; cbn [app]; intros H Ha Hb; [destruct Ha|].
  inversion H as [|? ? Hs Hx]; subst. destruct Ha as [->|Ha].
  - rewrite Forall_forall in Hx. apply Hx, in_or_app. right. exact Hb.
  - apply IH; assumption.
Qed.

(** In a descending list cut in two, the head part sums to at least 0 or
    the tail part to at most 0. *)
Lemma desc_cut (u v : list Q) :
  desc (u ++ v) -> 0 <= sumQ u \/ sumQ v <= 0.
Proof.
  intros H. destruct v as [|y v].
  - right. unfold sumQ. cbn. lra.
  - destruct (Qlt_le_dec y 0) as [Hy|Hy].
    + right. apply sumQ_nonpos.
      pose proof (desc_app_r _ _ H) as Hv. unfold desc in Hv.
      inversion Hv as [|? ? _ Hall]; subst.
      constructor; [lra|].
      eapply Forall_impl; [|exact Hall]. cbn. intros z Hz. lra.
    + left. apply sumQ_nonneg. apply Forall_forall. intros a Ha.
      pose proof (desc_app_le u (y :: v) a y H Ha (or_introl eq_refl)). lra.
Qed.


(** Every running sum is the start plus the sum of a head part. *)
Lemma cumQ_In (a c : Q) (qs : list Q) :
  In c (cumQ a qs) -> exists l2 l3, qs = l2 ++ l3 /\ c == a + sumQ l2.
Proof.
  revert a. induction qs as [|x qs IH]; intros a Hc; [destruct Hc|].
  cbn [cumQ] in Hc. destruct Hc as [<-|Hc].
  - exists [x], qs. split; [reflexivity|]. unfold sumQ. cbn. lra.
  - destruct (IH _ Hc) as (l2 & l3 & -> & E).
    exists (x :: l2), l3. split; [reflexivity|].
    unfold sumQ in *. cbn [map series_sum]. lra.
Qed.


(** *** The segmented table *)

Lemma series_sum_app (u v : list (option Q)) :
  series_sum (u ++ v) == series_sum u + series_sum v.
Proof.
  induction u as [|[x|] u IH]; cbn [app series_sum]; lra.
Qed.

Lemma series_sum_missing (k : nat) : series_sum (repeat None k) == 0.
Proof.
  induction k as [|k IH]; cbn [repeat series_sum]; lra.
Qed.

Lemma series_sum_perm (u v : list (option Q)) :
  Permutation u v -> series_sum u == series_sum v.
Proof.
  induction 1 as [|[x|] u v _ IH|[x|] [y|] u|u v w _ IH1 _ IH2];
    cbn [series_sum]; lra.
Qed.

Lemma cumsum_from_split (a : Q) (qs : list Q) (k : nat) :
  cumsum_from a (map Some qs ++ repeat None k)
  = map Some (cumQ a qs) ++ repeat None k.
Proof.
  revert a. induction qs as [|x qs IH]; intros a; cbn [map app cumsum_from cumQ].
  - induction k as [|k IHk]; cbn [repeat cumsum_from]; [reflexivity|].
    rewrite IHk. reflexivity.
  - rewrite IH. reflexivity.
Qed.

(** A frame in the order of the sort: the values present, larger first,
    then the rows without a value. *)
Lemma sorted_column (s : list CustomerRecord) :
  StronglySorted key_ge s ->
  exists qs k, swt_column s = map Some qs ++ repeat None k /\ desc qs.
Proof.
  induction 1 as [|r s Hs IH Hr].
  - exists [], 0%nat. split; [reflexivity|constructor].
  - destruct IH as (qs & k & E & Hd). unfold swt_column in *. cbn [map].
    destruct (sales_with_tax r) as [x|] eqn:Ex.
    + exists (x :: qs), k. split; [cbn [map app]; rewrite E; reflexivity|].
      constructor; [exact Hd|]. apply Forall_forall. intros y Hy.
      assert (Hin : In (Some y) (map sales_with_tax s)).
      { rewrite E. apply in_or_app. left. apply in_map. exact Hy. }
      apply in_map_iff in Hin. destruct Hin as (b & Eb & Hb).
      rewrite Forall_forall in Hr. specialize (Hr b Hb).
      unfold key_ge in Hr. rewrite Ex, Eb in Hr. exact Hr.
    + exists [], (S (List.length s)). split; [|constructor].
      cbn [map app repeat]. f_equal. clear E Hs Hd.
      induction Hr as [|b s Hb _ IHs]; [reflexivity|].
      cbn [map List.length repeat]. rewrite IHs.
      unfold key_ge in Hb. rewrite Ex in Hb.
      destruct (sales_with_tax b); [contradiction|reflexivity].
Qed.











(** *** The last cumulative percent *)






(** ** Outliers *)

(** C7.  The low-revenue view holds exactly the rows whose value with tax
    is below the low threshold, the spike view exactly those above the high
    threshold, each in the order of the table; a row without a value is in
    neither; a view is empty exactly when no row qualifies.  With the low
    threshold at 5000 a row at 4999 is in and a row at 5000 is not. *)
Theorem outlier_views (df : list CustomerRecord) (low high : Z) :
  (forall r, In r (low_revenue_customers df low) <->
             In r df /\ exists q, sales_with_tax r = Some q /\ q < inject_Z low)
  /\ (forall r, In r (high_spike_customers df high) <->
                In r df /\ exists q, sales_with_tax r = Some q /\ inject_Z high < q)
  /\ (low_revenue_customers df low = [] <->
      forall r q, In r df -> sales_with_tax r = Some q -> inject_Z low <= q)
  /\ (high_spike_customers df high = [] <->
      forall r q, In r df -> sales_with_tax r = Some q -> q <= inject_Z high)
  /\ low_revenue_customers
       [mkRecord (Str "x") (Some 4000) (Some 4999);
        mkRecord (Str "y") (Some 4500) (Some 5000);
        mkRecord (Str "z") None None] 5000
     = [mkRecord (Str "x") (Some 4000) (Some 4999)].
Proof.
  assert (Hlt : forall r, value_lt (sales_with_tax r) low = true <->
                          exists q, sales_with_tax r = Some q /\ q < inject_Z low).
  { intros r. unfold value_lt. destruct (sales_with_tax r) as [q|].
    - destruct (q ?= inject_Z low)%Q eqn:Ec; split; try discriminate;
        try reflexivity.
      + intros (q' & E & H). injection E as <-. rewrite Qlt_alt in H. congruence.
      + intros _. exists q. split; [reflexivity|]. apply Qlt_alt. exact Ec.
      + intros (q' & E & H). injection E as <-. rewrite Qlt_alt in H. congruence.
    - split; [discriminate|]. intros (q & E & _). discriminate. }
  assert (Hgt : forall r, value_gt (sales_with_tax r) high = true <->
                          exists q, sales_with_tax r = Some q /\ inject_Z high < q).
  { intros r. unfold value_gt. destruct (sales_with_tax r) as [q|].
    - destruct (q ?= inject_Z high)%Q eqn:Ec; split; try discriminate;
        try reflexivity.
      + intros (q' & E & H). injection E as <-. rewrite Qgt_alt in H. congruence.
      + intros (q' & E & H). injection E as <-. rewrite Qgt_alt in H. congruence.
      + intros _. exists q. split; [reflexivity|]. apply Qgt_alt. exact Ec.
    - split; [discriminate|]. intros (q & E & _). discriminate. }
  unfold low_revenue_customers, high_spike_customers.
  split; [|split; [|split; [|split]]].
  - intros r. rewrite filter_In, Hlt. reflexivity.
  - intros r. rewrite filter_In, Hgt. reflexivity.
  - split.
    + intros E r q Hin Hq. destruct (Qlt_le_dec q (inject_Z low)) as [H|H]; [|exact H].
      assert (Hr : In r (filter (fun r => value_lt (sales_with_tax r) low) df)).
      { apply filter_In. split; [exact Hin|]. apply Hlt. exists q. split; assumption. }
      rewrite E in Hr. destruct Hr.
    + intros H. destruct (filter _ df) as [|r l] eqn:E; [reflexivity|].
      assert (Hr : In r (filter (fun r => value_lt (sales_with_tax r) low) df))
        by (rewrite E; left; reflexivity).
      apply filter_In in Hr. destruct Hr as [Hin Hv].
      apply Hlt in Hv. destruct Hv as (q & Eq & Hq).
      specialize (H r q Hin Eq). lra.
  - split.
    + intros E r q Hin Hq. destruct (Qlt_le_dec (inject_Z high) q) as [H|H]; [|exact H].
      assert (Hr : In r (filter (fun r => value_gt (sales_with_tax r) high) df)).
      { apply filter_In. split; [exact Hin|]. apply Hgt. exists q. split; assumption. }
      rewrite E in Hr. destruct Hr.
    + intros H. destruct (filter _ df) as [|r l] eqn:E; [reflexivity|].
      assert (Hr : In r (filter (fun r => value_gt (sales_with_tax r) high) df))
        by (rewrite E; left; reflexivity).
      apply filter_In in Hr. destruct Hr as [Hin Hv].
      apply Hgt in Hv. destruct Hv as (q & Eq & Hq).
      specialize (H r q Hin Eq). lra.
  - reflexivity.
Qed.

(** No row is in both views when the low threshold is at most the high
    one (the sliders keep the low one at most 100000 and the high one at
    least 100000). *)
Theorem outlier_views_disjoint (df : list CustomerRecord) (low high : Z)
        (r : CustomerRecord) :
  (low <= high)%Z ->
  In r (low_revenue_customers df low) ->
  ~ In r (high_spike_customers df high).
Proof.
  intros Hlh Hl Hh.
  unfold low_revenue_customers, high_spike_customers in *.
  apply filter_In in Hl. apply filter_In in Hh.
  destruct Hl as [_ Hl]. destruct Hh as [_ Hh].
  unfold value_lt, value_gt in *.
  destruct (sales_with_tax r) as [q|]; [|discriminate].
  destruct (q ?= inject_Z low)%Q eqn:E1; try discriminate.
  destruct (q ?= inject_Z high)%Q eqn:E2; try discriminate.
  rewrite <- Qlt_alt in E1. rewrite <- Qgt_alt in E2.
  assert (inject_Z low <= inject_Z high) by (rewrite <- Zle_Qle; exact Hlh).
  lra.
Qed.

(** The theorem at the sliders' defaults, 5000 and 300000. *)
Lemma outlier_views_disjoint_default :
  ~ In (mkRecord (Str "x") (Some 4000) (Some 4999))
       (high_spike_customers
          [mkRecord (Str "x") (Some 4000) (Some 4999);
           mkRecord (Str "y") (Some 400000) (Some 472000)] 300000).
Proof.
  apply (outlier_views_disjoint _ 5000 300000).
  - lia.
  - vm_compute. left. reflexivity.
Defined.

(** * Further properties *)

(** ** The cleaned table *)

Lemma keep_row_name (iN : nat) (row : list cell) :
  keep_row iN row = true ->
  at_col iN row <> NA /\ forall s, at_col iN row = Str s -> lower s <> "total".
Proof.
  unfold keep_row, notna, not_total.
  destruct (at_col iN row) as [|s|q]; cbn [andb]; intros H.
  - discriminate H.
  - split; [discriminate|]. intros s' E. injection E as <-.
    destruct (String.eqb_spec (lower s) "total"); [discriminate H|assumption].
  - split; [discriminate|]. intros s' E. discriminate E.
Qed.

Lemma load_data_loaded (to_numeric : string -> option Q) (df : DataFrame)
      (t : list CustomerRecord) :
  load_data to_numeric df = Loaded t ->
  exact_header (header df) = true
  /\ t = map (clean_row to_numeric
                        (col_index "Customer Name" (header df))
                        (col_index "Sales" (header df))
                        (col_index "Sales With Tax" (header df)))
             (filter (keep_row (col_index "Customer Name" (header df))) (rows df)).
Proof.
  intros Ht. destruct (exact_header (header df)) eqn:Hh.
  - split; [reflexivity|]. rewrite (load_data_exact to_numeric df Hh) in Ht.
    destruct (object_dtype _ df); [|discriminate Ht]. injection Ht as <-. reflexivity.
  - exfalso. exact (load_data_inexact to_numeric df t Hh Ht).
Qed.

(** Whatever the sheet, a table [load_data] returns has no more rows than
    the sheet, and no row of it has a missing name or the name "total" in
    any letter case. *)
Theorem cleaned_table_names (to_numeric : string -> option Q) (df : DataFrame)
        (t : list CustomerRecord) :
  load_data to_numeric df = Loaded t ->
  (List.length t <= List.length (rows df))%nat
  /\ forall r, In r t ->
               name r <> NA /\ forall s, name r = Str s -> lower s <> "total".
Proof.
  intros Ht. destruct (load_data_loaded _ _ _ Ht) as [_ ->]. split.
  - rewrite length_map. apply filter_length_le.
  - intros r Hr. apply in_map_iff in Hr. destruct Hr as (row & <- & Hrow).
    apply filter_In in Hrow. destruct Hrow as [_ Hk].
    cbn [clean_row name]. apply keep_row_name. exact Hk.
Qed.

(** The theorem on the scenario's sheet. *)
Lemma cleaned_table_names_scenario :
  (List.length scenario_table <= List.length (rows scenario_sheet))%nat
  /\ forall r, In r scenario_table ->
               name r <> NA /\ forall s, name r = Str s -> lower s <> "total".
Proof.
  apply (cleaned_table_names Numeric.parse_decimal scenario_sheet scenario_table).
  reflexivity.
Defined.

(** ** Labels *)

Lemma rename_label_spelled (x label : string) :
  In label expected_columns -> (rename_label x = label <-> spelled x label).
Proof.
  intros Hl. unfold rename_label, spelled.
  destruct (String.eqb_spec (lower x) "name") as [E1|E1];
    [|destruct (String.eqb_spec (lower x) "sales") as [E2|E2];
      [|destruct (String.eqb_spec (lower x) "sales with tax") as [E3|E3]]].
  - split.
    + intros <-. right. left. split; [reflexivity|exact E1].
    + intros [->|[[-> _]|[[_ H]|[_ H]]]]; try reflexivity;
        try (rewrite E1 in H; discriminate H).
      cbn in Hl. destruct Hl as [<-|[<-|[<-|[]]]]; vm_compute in E1; discriminate E1.
  - split.
    + intros <-. right. right. left. split; [reflexivity|exact E2].
    + intros [->|[[_ H]|[[-> _]|[_ H]]]]; try reflexivity;
        try (rewrite E2 in H; discriminate H).
      cbn in Hl. destruct Hl as [<-|[<-|[<-|[]]]]; try reflexivity;
        vm_compute in E2; discriminate E2.
  - split.
    + intros <-. right. right. right. split; [reflexivity|exact E3].
    + intros [->|[[_ H]|[[_ H]|[-> _]]]]; try reflexivity;
        try (rewrite E3 in H; discriminate H).
      cbn in Hl. destruct Hl as [<-|[<-|[<-|[]]]]; try reflexivity;
        vm_compute in E3; discriminate E3.
  - split.
    + intros H. left. exact H.
    + intros [H|[[_ H]|[[_ H]|[_ H]]]]; [exact H|contradiction..].
Qed.

Lemma forallb_false_iff {X : Type} (f : X -> bool) (l : list X) :
  forallb f l = false <-> exists x, In x l /\ f x = false.
Proof.
  induction l as [|a l IH]; cbn [forallb].
  - split; [discriminate|]. intros (x & [] & _).
  - rewrite andb_false_iff, IH. split.
    + intros [H|(x & Hx & Hf)]; [exists a; split; [left; reflexivity|exact H]|].
      exists x. split; [right; exact Hx|exact Hf].
    + intros (x & [<-|Hx] & Hf); [left; exact Hf|]. right. exists x. split; assumption.
Qed.

Lemma existsb_eqb_false (x : string) (l : list string) :
  existsb (String.eqb x) l = false <-> ~ In x l.
Proof.
  split.
  - intros H Hin. rewrite (existsb_eqb_In x l Hin) in H. discriminate H.
  - intros H. destruct (existsb (String.eqb x) l) eqn:E; [|reflexivity].
    apply existsb_exists in E. destruct E as (y & Hy & Exy).
    apply String.eqb_eq in Exy. subst y. contradiction.
Qed.

(** [load_data] ends with the format error exactly when some column's
    label, stripped, is no spelling of a required label (any extra column
    is fatal), or some required label has no column spelled as it.  The
    lower-case "customer name" is no accepted spelling. *)
Theorem format_error_by_labels (to_numeric : string -> option Q) (df : DataFrame) :
  (load_data to_numeric df = FormatError
   <-> (exists c, In c (columns df)
                  /\ forall label, In label expected_columns ->
                                   ~ spelled (strip c) label)
       \/ (exists label, In label expected_columns
                         /\ forall c, In c (columns df) ->
                                      ~ spelled (strip c) label))
  /\ (forall label, In label expected_columns -> ~ spelled "customer name" label)
  /\ load_data to_numeric numbered_sheet = FormatError.
Proof.
  split; [|split; [|reflexivity]].
  - rewrite load_data_format_error. unfold set_eqb.
    rewrite andb_false_iff. unfold subsetb. rewrite !forallb_false_iff.
    unfold header. split.
    + intros [(x & Hx & Hf)|(label & Hl & Hf)].
      * left. rewrite map_map in Hx. apply in_map_iff in Hx.
        destruct Hx as (c & <- & Hc). exists c. split; [exact Hc|].
        intros label Hl Hs. apply existsb_eqb_false in Hf. apply Hf.
        apply (rename_label_spelled _ _ Hl) in Hs. rewrite Hs. exact Hl.
      * right. exists label. split; [exact Hl|]. intros c Hc Hs.
        apply existsb_eqb_false in Hf. apply Hf.
        apply (rename_label_spelled _ _ Hl) in Hs. rewrite <- Hs.
        rewrite map_map. apply in_map_iff. exists c. split; [reflexivity|exact Hc].
    + intros [(c & Hc & Hn)|(label & Hl & Hn)].
      * left. exists (rename_label (strip c)). split.
        -- rewrite map_map. apply in_map_iff. exists c. split; [reflexivity|exact Hc].
        -- apply existsb_eqb_false. intros Hin.
           apply (Hn _ Hin). apply (rename_label_spelled _ _ Hin). reflexivity.
      * right. exists label. split; [exact Hl|].
        apply existsb_eqb_false. intros Hin. rewrite map_map in Hin.
        apply in_map_iff in Hin. destruct Hin as (c & E & Hc).
        apply (Hn c Hc). apply (rename_label_spelled _ _ Hl). exact E.
  - intros label Hl Hs. apply (rename_label_spelled _ _ Hl) in Hs.
    cbn in Hl. destruct Hl as [<-|[<-|[<-|[]]]]; vm_compute in Hs; discriminate Hs.
Qed.

(** ** Columns in any order *)

Lemma load_frame_columns (to_numeric : string -> option Q) (df fr : DataFrame) :
  load_frame to_numeric df = Loaded fr -> columns fr = header df.
Proof.
  intros H. destruct (exact_header (header df)) eqn:Hh.
  - rewrite (load_frame_exact to_numeric df Hh) in H.
    destruct (object_dtype _ df); [|discriminate H]. injection H as <-. reflexivity.
  - exfalso. exact (load_frame_inexact to_numeric df fr Hh H).
Qed.

Lemma load_data_same_cells (to_numeric : string -> option Q)
      (df df' : DataFrame) :
  exact_header (header df) = true ->
  exact_header (header df') = true ->
  same_cells df df' ->
  load_data to_numeric df = load_data to_numeric df'.
Proof.
  intros Hh Hh' Hc. rewrite (load_data_exact _ df Hh), (load_data_exact _ df' Hh').
  unfold same_cells in Hc.
  set (iN := col_index "Customer Name" (header df)) in *.
  set (iS := col_index "Sales" (header df)) in *.
  set (iT := col_index "Sales With Tax" (header df)) in *.
  set (jN := col_index "Customer Name" (header df')) in *.
  set (jS := col_index "Sales" (header df')) in *.
  set (jT := col_index "Sales With Tax" (header df')) in *.
  assert (Hrows : Forall2 (fun row row' =>
                             at_col iN row = at_col jN row'
                             /\ at_col iS row = at_col jS row'
                             /\ at_col iT row = at_col jT row')
                          (rows df) (rows df')).
  { eapply Forall2_impl; [|exact Hc]. cbn beta. intros row row' H.
    repeat split; apply H; cbn; auto. }
  clear Hc.
  assert (Hd : object_dtype iN df = object_dtype jN df').
  { unfold object_dtype.
    assert (He : existsb (fun row => is_text (at_col iN row)) (rows df)
                 = existsb (fun row => is_text (at_col jN row)) (rows df')).
    { induction Hrows as [|row row' l l' (E & _ & _) _ IH]; [reflexivity|].
      cbn [existsb]. rewrite E, IH. reflexivity. }
    destruct Hrows; [reflexivity|exact He]. }
  rewrite Hd. destruct (object_dtype jN df'); [|reflexivity]. f_equal.
  induction Hrows as [|row row' l l' (EN & ES & ET) _ IH]; [reflexivity|].
  assert (Ek : keep_row iN row = keep_row jN row')
    by (unfold keep_row; rewrite EN; reflexivity).
  cbn [filter]. rewrite Ek.
  destruct (keep_row jN row'); [|exact IH].
  cbn [map]. rewrite IH. unfold clean_row. rewrite EN, ES, ET. reflexivity.
Qed.

(** The frame [load_data] returns keeps the columns of its sheet, in the
    order of the sheet, under their new labels: the position of a column
    shows in the frame.  It does not show in what the script reads from
    the frame by label: two sheets with exact headers that hold the same
    cells under the three required labels give the same records. *)
Theorem frame_keeps_sheet_order (to_numeric : string -> option Q)
        (df df' : DataFrame) :
  exact_header (header df) = true ->
  exact_header (header df') = true ->
  same_cells df df' ->
  (forall fr, load_frame to_numeric df = Loaded fr -> columns fr = header df)
  /\ (forall fr', load_frame to_numeric df' = Loaded fr' ->
                  columns fr' = header df')
  /\ load_data to_numeric df = load_data to_numeric df'.
Proof.
  intros Hh Hh' Hc. split; [|split].
  - intros fr. apply load_frame_columns.
  - intros fr'. apply load_frame_columns.
  - apply load_data_same_cells; assumption.
Qed.

(** The theorem on the scenario's sheet and [shuffled_sheet]. *)
Lemma frame_keeps_sheet_order_shuffled :
  (forall fr, load_frame Numeric.parse_decimal scenario_sheet = Loaded fr ->
              columns fr = ["Customer Name"; "Sales"; "Sales With Tax"])
  /\ (forall fr', load_frame Numeric.parse_decimal shuffled_sheet = Loaded fr' ->
                  columns fr' = ["Sales"; "Customer Name"; "Sales With Tax"])
  /\ load_data Numeric.parse_decimal scenario_sheet
     = load_data Numeric.parse_decimal shuffled_sheet.
Proof.
  apply (frame_keeps_sheet_order Numeric.parse_decimal scenario_sheet shuffled_sheet).
  - reflexivity.
  - reflexivity.
  - unfold same_cells. repeat constructor;
      intros label [<-|[<-|[<-|[]]]]; reflexivity.
Defined.

(** ** The top 20 and the pages *)

Lemma sorted_app_ge {X : Type} (R : X -> X -> Prop) (u v : list X) (a b : X) :
  StronglySorted R (u ++ v) -> In a u -> In b v -> R a b.
Proof.
  induction u as [|x u IH]; cbn [app]; intros H Ha Hb; [destruct Ha|].
  inversion H as [|? ? Hs Hx]; subst. destruct Ha as [->|Ha].
  - rewrite Forall_forall in Hx. apply Hx, in_or_app. right. exact Hb.
  - apply IH; assumption.
Qed.

Lemma firstn_add_skipn {X : Type} (m k : nat) (l : list X) :
  firstn (m + k) l = firstn m l ++ firstn k (skipn m l).
Proof.
  revert l. induction m as [|m IH]; intros l; [reflexivity|].
  destruct l as [|x l]; cbn [Nat.add firstn skipn app].
  - rewrite firstn_nil. reflexivity.
  - rewrite IH. reflexivity.
Qed.

Lemma In_firstn {X : Type} (k : nat) (l : list X) (a : X) :
  In a (firstn k l) -> In a l.
Proof.
  intros H. rewrite <- (firstn_skipn k l). apply in_or_app. left. exact H.
Qed.

Lemma In_skipn {X : Type} (k : nat) (l : list X) (a : X) :
  In a (skipn k l) -> In a l.
Proof.
  intros H. rewrite <- (firstn_skipn k l). apply in_or_app. right. exact H.
Qed.

(** In every frame the sort may return, the rows before a cut come no
    lower than the rows after it. *)
Lemma cut_ge (s : list CustomerRecord) (n : nat) (a b : CustomerRecord) :
  StronglySorted key_ge s -> In a (firstn n s) -> In b (skipn n s) -> key_ge a b.
Proof.
  intros Hs. rewrite <- (firstn_skipn n s) in Hs. apply sorted_app_ge. exact Hs.
Qed.

(** The top-20 view holds 20 rows of the cleaned table, or all of them
    when there are fewer, and no row left out of it has a larger value
    than a row in it; a row without a value is in it only if every row
    left out has none either. *)
Theorem top_20_ranks_first (df s : list CustomerRecord) :
  is_sort_values df s ->
  List.length (top_20 s) = Nat.min 20 (List.length df)
  /\ (forall a, In a (top_20 s) -> In a df)
  /\ Permutation df (top_20 s ++ skipn 20 s)
  /\ (forall a b, In a (top_20 s) -> In b (skipn 20 s) ->
        match sales_with_tax a, sales_with_tax b with
        | Some x, Some y => y <= x
        | None, Some _ => False
        | _, None => True
        end).
Proof.
  intros [Hp Hs]. unfold top_20. split; [|split; [|split]].
  - rewrite length_firstn, (Permutation_length Hp). reflexivity.
  - intros a Ha. apply (Permutation_in _ (Permutation_sym Hp)).
    apply (In_firstn 20). exact Ha.
  - rewrite firstn_skipn. exact Hp.
  - intros a b Ha Hb. pose proof (cut_ge s 20 a b Hs Ha Hb) as H.
    unfold key_ge in H. destruct (sales_with_tax a), (sales_with_tax b); exact H.
Qed.

(** The theorem on [forty_five] in the stable order. *)
Lemma top_20_ranks_first_forty_five :
  List.length (top_20 (stable_sort_values forty_five))
  = Nat.min 20 (List.length forty_five)
  /\ (forall a, In a (top_20 (stable_sort_values forty_five)) -> In a forty_five)
  /\ Permutation forty_five
       (top_20 (stable_sort_values forty_five)
        ++ skipn 20 (stable_sort_values forty_five))
  /\ (forall a b, In a (top_20 (stable_sort_values forty_five)) ->
                  In b (skipn 20 (stable_sort_values forty_five)) ->
        match sales_with_tax a, sales_with_tax b with
        | Some x, Some y => y <= x
        | None, Some _ => False
        | _, None => True
        end).
Proof.
  apply (top_20_ranks_first forty_five (stable_sort_values forty_five)).
  apply stable_sort_values_admissible.
Defined.

(** For a page number the widget allows (from 1 to [total_pages]), the
    page holds the rows the chart's title announces, "first to last of
    total": it is not empty, it has 20 rows unless it is the last page, and
    the last page has what is left. *)
Theorem page_matches_title (scroll_df : list CustomerRecord) (page_num : nat) :
  (1 <= page_num <= total_pages scroll_df)%nat ->
  let first := fst (fst (title_numbers scroll_df page_num)) in
  let last := snd (fst (title_numbers scroll_df page_num)) in
  let total := snd (title_numbers scroll_df page_num) in
  (first <= last <= total)%nat
  /\ total = List.length scroll_df
  /\ paginated_df scroll_df page_num
     = firstn (last + 1 - first) (skipn (first - 1) scroll_df)
  /\ List.length (paginated_df scroll_df page_num) = (last + 1 - first)%nat
  /\ (1 <= List.length (paginated_df scroll_df page_num) <= 20)%nat
  /\ ((page_num < total_pages scroll_df)%nat ->
      List.length (paginated_df scroll_df page_num) = 20%nat)
  /\ (page_num = total_pages scroll_df ->
      List.length (paginated_df scroll_df page_num)
      = (List.length scroll_df - (page_num - 1) * 20)%nat).
Proof.
  intros Hp. pose proof (total_pages_ceil scroll_df) as Hb.
  unfold title_numbers, paginated_df, iloc, customers_per_page.
  cbn [fst snd].
  set (n := List.length scroll_df) in *.
  set (m := ((page_num - 1) * 20)%nat).
  assert (Hm : (m + 20 <= total_pages scroll_df * 20)%nat) by (unfold m; nia).
  assert (Hlen : List.length (firstn (m + 20 - m) (skipn m scroll_df))
                 = (Nat.min (m + 20) n + 1 - (m + 1))%nat).
  { rewrite length_firstn, length_skipn. fold n. lia. }
  split; [lia|]. split; [reflexivity|]. split; [|split; [exact Hlen|]].
  - replace (m + 1 - 1)%nat with m by lia.
    rewrite <- (firstn_skipn (Nat.min (m + 20) n + 1 - (m + 1))
                             (firstn (m + 20 - m) (skipn m scroll_df))) at 1.
    rewrite firstn_firstn.
    replace (Nat.min (Nat.min (m + 20) n + 1 - (m + 1)) (m + 20 - m))
      with (Nat.min (m + 20) n + 1 - (m + 1))%nat by lia.
    rewrite (skipn_all2 (firstn _ _)) by lia.
    apply app_nil_r.
  - rewrite Hlen. split; [lia|]. split; [intros Hlt; nia|intros ->; unfold m; lia].
Qed.

(** The theorem on the last of the three pages of [forty_five]. *)
Lemma page_matches_title_forty_five :
  let s := stable_sort_values forty_five in
  let first := fst (fst (title_numbers s 3)) in
  let last := snd (fst (title_numbers s 3)) in
  let total := snd (title_numbers s 3) in
  (first <= last <= total)%nat
  /\ total = List.length s
  /\ paginated_df s 3 = firstn (last + 1 - first) (skipn (first - 1) s)
  /\ List.length (paginated_df s 3) = (last + 1 - first)%nat
  /\ (1 <= List.length (paginated_df s 3) <= 20)%nat
  /\ ((3 < total_pages s)%nat -> List.length (paginated_df s 3) = 20%nat)
  /\ (3%nat = total_pages s ->
      List.length (paginated_df s 3) = (List.length s - (3 - 1) * 20)%nat).
Proof.
  apply (page_matches_title (stable_sort_values forty_five) 3).
  vm_compute. split; repeat constructor.
Defined.

(** A page number past [total_pages] gives an empty page, by the rules of
    slicing; and the page count is 0 exactly for the empty table, on which
    the widget is given the empty range from 1 to 0. *)
Theorem page_past_the_end (scroll_df : list CustomerRecord) (page_num : nat) :
  (total_pages scroll_df < page_num)%nat ->
  paginated_df scroll_df page_num = []
  /\ (total_pages scroll_df = 0%nat <-> scroll_df = []).
Proof.
  intros Hp. pose proof (total_pages_ceil scroll_df) as Hb. split.
  - unfold paginated_df, iloc, customers_per_page.
    rewrite skipn_all2 by nia. apply firstn_nil.
  - split.
    + intros E. rewrite E in Hb. destruct scroll_df; [reflexivity|cbn in Hb; lia].
    + intros ->. reflexivity.
Qed.

(** The theorem on page 4 of [forty_five]. *)
Lemma page_past_the_end_forty_five :
  paginated_df (stable_sort_values forty_five) 4 = []
  /\ (total_pages (stable_sort_values forty_five) = 0%nat
      <-> stable_sort_values forty_five = []).
Proof.
  apply (page_past_the_end (stable_sort_values forty_five) 4).
  vm_compute. repeat constructor.
Defined.

(** In every frame the sort may return, a row on an earlier page comes no
    lower than a row on a later page. *)
Theorem earlier_page_ranks_first (df s : list CustomerRecord) (p q : nat)
        (a b : CustomerRecord) :
  is_sort_values df s ->
  (1 <= p < q)%nat ->
  In a (paginated_df s p) -> In b (paginated_df s q) ->
  match sales_with_tax a, sales_with_tax b with
  | Some x, Some y => y <= x
  | None, Some _ => False
  | _, None => True
  end.
Proof.
  intros [_ Hs] Hpq Ha Hb.
  unfold paginated_df, iloc, customers_per_page in Ha, Hb.
  replace ((p - 1) * 20 + 20 - (p - 1) * 20)%nat with 20%nat in Ha by lia.
  replace ((q - 1) * 20 + 20 - (q - 1) * 20)%nat with 20%nat in Hb by lia.
  assert (Ha' : In a (firstn (p * 20) s)).
  { replace (p * 20)%nat with ((p - 1) * 20 + 20)%nat by lia.
    rewrite firstn_add_skipn. apply in_or_app. right. exact Ha. }
  assert (Hb' : In b (skipn (p * 20) s)).
  { apply In_firstn in Hb.
    replace ((q - 1) * 20)%nat with ((q - 1 - p) * 20 + p * 20)%nat in Hb by nia.
    rewrite <- skipn_skipn in Hb. apply In_skipn in Hb. exact Hb. }
  pose proof (cut_ge s (p * 20) a b Hs Ha' Hb') as H.
  unfold key_ge in H. destruct (sales_with_tax a), (sales_with_tax b); exact H.
Qed.

(** The theorem on the first and the last page of [forty_five]: the
    largest value against a value of the last page. *)
Lemma earlier_page_ranks_first_forty_five :
  match sales_with_tax (mkRecord (Str "c") (Some 1) (Some 21)),
        sales_with_tax (mkRecord (Str "c") (Some 1) (Some 0)) with
  | Some x, Some y => y <= x
  | None, Some _ => False
  | _, None => True
  end.
Proof.
  apply (earlier_page_ranks_first forty_five (stable_sort_values forty_five) 1 3).
  - apply stable_sort_values_admissible.
  - lia.
  - vm_compute. left. reflexivity.
  - vm_compute. right. right. left. reflexivity.
Defined.

(** ** Segments, once more *)








(** When the values with tax of the cleaned table are whole numbers that
    add up to 0, line 122 divides by zero; no exception is raised, every
    cumulative percent is an infinity or NaN, and every row is put in
    segment C. *)
Theorem zero_total_all_C (df s : list CustomerRecord) :
  is_sort_values df s ->
  whole_valued df ->
  series_sum (swt_column df) == 0 ->
  Forall (fun r => segment r = C
                   /\ (cumulative r = PosInf \/ cumulative r = PNaN))
         (segmentation s).
Proof.
  intros [Hp Hs] _ HT. apply Forall_forall.
  assert (HT' : series_sum (swt_column s) == 0).
  { rewrite <- HT. apply series_sum_perm. unfold swt_column.
    apply Permutation_map, Permutation_sym, Hp. }
  destruct (sorted_column s Hs) as (qs & k & E & Hd).
  assert (Hsum : sumQ qs == 0).
  { rewrite E, series_sum_app, series_sum_missing in HT'. unfold sumQ. lra. }
  assert (Hcum : forall p, In p (cumulative_percent s) -> p = PosInf \/ p = PNaN).
  { intros p Hin. unfold cumulative_percent, cumsum in Hin.
    replace (cumsum_from 0 (swt_column s))
      with (cumsum_from 0 (map Some qs ++ repeat None k)) in Hin
      by (rewrite E; reflexivity).
    rewrite cumsum_from_split in Hin.
    apply in_map_iff in Hin. destruct Hin as (v & <- & Hv).
    apply in_app_or in Hv. destruct Hv as [Hv|Hv].
    - apply in_map_iff in Hv. destruct Hv as (c & <- & Hc).
      destruct (cumQ_In _ _ _ Hc) as (l2 & l3 & -> & Ec).
      assert (H0 : 0 <= c).
      { rewrite sumQ_app in Hsum. destruct (desc_cut l2 l3 Hd); lra. }
      unfold series_div. apply Qeq_bool_iff in HT'. rewrite HT'.
      destruct (c ?= 0)%Q eqn:Ecmp; cbn [times100]; auto.
      rewrite <- Qlt_alt in Ecmp. lra.
    - apply repeat_spec in Hv. subst v. right. reflexivity. }
  intros r Hr. unfold segmentation in Hr. apply in_map_iff in Hr.
  destruct Hr as ((c & p) & <- & Hcp). cbn [segment cumulative fst snd].
  apply in_combine_r in Hcp. destruct (Hcum p Hcp) as [-> | ->];
    split; auto.
Qed.

(** The theorem on [balanced_table] in the stable order. *)
Lemma zero_total_all_C_balanced :
  Forall (fun r => segment r = C
                   /\ (cumulative r = PosInf \/ cumulative r = PNaN))
         (segmentation (stable_sort_values balanced_table)).
Proof.
  apply (zero_total_all_C balanced_table (stable_sort_values balanced_table)).
  - apply stable_sort_values_admissible.
  - split; [|vm_compute; reflexivity].
    repeat constructor; intros q E; injection E as <-.
    + exists 5%Z. reflexivity.
    + exists (-5)%Z. reflexivity.
    + exists 0%Z. reflexivity.
  - vm_compute. reflexivity.
Defined.

(** ** The Pareto chart *)

Lemma cumsum_from_bounds (vals : list (option Q)) (a c : Q) :
  (forall q, In (Some q) vals -> 0 <= q) ->
  In (Some c) (cumsum_from a vals) ->
  a <= c /\ c <= a + series_sum vals.
Proof.
  revert a. induction vals as [|[x|] vals IH]; intros a Hpos Hc.
  - destruct Hc.
  - assert (Hx : 0 <= x) by (apply Hpos; left; reflexivity).
    assert (Hs : 0 <= series_sum vals).
    { clear -Hpos. induction vals as [|[y|] vals IH]; cbn [series_sum]; [lra| |].
      - assert (0 <= y) by (apply Hpos; right; left; reflexivity).
        assert (0 <= series_sum vals); [|lra].
        apply IH. intros q [Hq|Hq]; apply Hpos; [left; exact Hq|right; right; exact Hq].
      - apply IH. intros q [Hq|Hq]; apply Hpos; [left; exact Hq|right; right; exact Hq]. }
    cbn [cumsum_from series_sum] in *. destruct Hc as [Hc|Hc].
    + injection Hc as <-. lra.
    + assert (Hpos' : forall q, In (Some q) vals -> 0 <= q)
        by (intros q Hq; apply Hpos; right; exact Hq).
      destruct (IH _ Hpos' Hc). lra.
  - cbn [cumsum_from series_sum] in *. destruct Hc as [Hc|Hc]; [discriminate Hc|].
    apply IH; [|exact Hc]. intros q Hq. apply Hpos. right. exact Hq.
Qed.

(** The second axis of the Pareto chart is fixed to the range from 0 to
    100 (line 171).  When the values with tax are whole numbers, none is
    negative and the total is positive, every cumulative percent drawn is
    in that range; a row without a value has none to draw. *)
Theorem cumulative_percent_in_range (df_sorted : list CustomerRecord) :
  whole_valued df_sorted ->
  Forall (fun r => forall q, sales_with_tax r = Some q -> 0 <= q) df_sorted ->
  0 < series_sum (swt_column df_sorted) ->
  Forall (fun p => p = PNaN \/ exists q, p = Fin q /\ 0 <= q /\ q <= 100)
         (cumulative_percent df_sorted).
Proof.
  intros _ Hpos HT. apply Forall_forall. intros p Hp.
  unfold cumulative_percent, cumsum in Hp. apply in_map_iff in Hp.
  destruct Hp as ([c|] & <- & Hc); [|left; reflexivity]. right.
  assert (Hb : 0 <= c /\ c <= 0 + series_sum (swt_column df_sorted)).
  { apply (cumsum_from_bounds _ 0 c); [|exact Hc].
    intros q Hq. unfold swt_column in Hq. apply in_map_iff in Hq.
    destruct Hq as (r & Er & Hr). rewrite Forall_forall in Hpos.
    exact (Hpos r Hr q Er). }
  set (T := series_sum (swt_column df_sorted)) in *.
  unfold series_div.
  destruct (Qeq_bool T 0) eqn:Ez; [apply Qeq_bool_iff in Ez; lra|].
  cbn [times100]. eexists. split; [reflexivity|].
  pose proof (div_le_pos T 0 c HT (proj1 Hb)) as H0.
  pose proof (div_le_pos T c T HT) as H1.
  assert (E0 : 0 / T == 0) by (field; lra).
  assert (E1 : T / T == 1) by (field; lra).
  split; [lra|]. assert (c / T <= T / T) by (apply H1; lra). lra.
Qed.

(** The theorem on the scenario's table. *)
Lemma cumulative_percent_in_range_scenario :
  Forall (fun p => p = PNaN \/ exists q, p = Fin q /\ 0 <= q /\ q <= 100)
         (cumulative_percent (stable_sort_values scenario_table)).
Proof.
  apply (cumulative_percent_in_range (stable_sort_values scenario_table)).
  - split; [|vm_compute; reflexivity]. vm_compute.
    repeat constructor; intros q E; injection E as <-.
    + exists 120%Z. reflexivity.
    + exists 60%Z. reflexivity.
  - vm_compute. repeat constructor; intros q E; injection E as <-; discriminate.
  - vm_compute. reflexivity.
Defined.

(** ** The segment chart and the drill-down *)





(** ** Distinct customers *)

Lemma nunique_le (vals : list cell) : (nunique vals <= List.length vals)%nat.
Proof.
  induction vals as [|c vals IH]; cbn [nunique List.length]; [lia|].
  destruct (notna c && negb (existsb (cell_eqb c) vals)); lia.
Qed.

Lemma existsb_cell_eqb_text (x : string) (vals : list cell) :
  existsb (cell_eqb (Str x)) vals = true <-> In (Str x) vals.
Proof.
  rewrite existsb_exists. split.
  - intros (c & Hc & E). destruct c as [|y|q]; cbn in E; try discriminate E.
    apply String.eqb_eq in E. subst y. exact Hc.
  - intros H. exists (Str x). split; [exact H|]. cbn. apply String.eqb_refl.
Qed.

(** The "Total Customers" metric counts a name once however many rows
    bear it: it never exceeds the number of rows, and on a table whose
    names are texts it equals the number of rows exactly when no two rows
    have the same name. *)
Theorem total_customers_counts_names_once (df : list CustomerRecord) :
  (total_customers df <= List.length df)%nat
  /\ (Forall (fun r => exists s, name r = Str s) df ->
      (total_customers df = List.length df <-> NoDup (map name df))).
Proof.
  unfold total_customers. rewrite <- (length_map name df).
  split; [apply nunique_le|]. intros Ht.
  assert (Ht' : Forall (fun c => exists s, c = Str s) (map name df))
    by (apply Forall_map; exact Ht).
  clear Ht.
  induction Ht' as [|c vals (x & ->) _ IH]; cbn [nunique List.length notna andb].
  - split; [constructor|reflexivity].
  - pose proof (nunique_le vals) as Hle.
    destruct (existsb (cell_eqb (Str x)) vals) eqn:E; cbn [negb].
    + apply existsb_cell_eqb_text in E. split; [lia|].
      intros H. inversion H; contradiction.
    + assert (Hn : ~ In (Str x) vals).
      { intros Hin. apply existsb_cell_eqb_text in Hin. congruence. }
      split.
      * intros H. constructor; [exact Hn|]. apply IH. lia.
      * intros H. inversion H; subst. f_equal. apply IH. assumption.
Qed.

(** The theorem on the scenario's table, whose names are texts. *)
Lemma total_customers_counts_names_once_scenario :
  (total_customers scenario_table <= List.length scenario_table)%nat
  /\ (total_customers scenario_table = List.length scenario_table
      <-> NoDup (map name scenario_table)).
Proof.
  split.
  - apply (total_customers_counts_names_once scenario_table).
  - apply (total_customers_counts_names_once scenario_table).
    repeat constructor; eexists; reflexivity.
Defined.

(** ** The sliders *)

(** Raising the low threshold only adds rows to the low-revenue view, and
    raising the spike threshold only removes rows from the spike view. *)
Theorem thresholds_are_monotone (df : list CustomerRecord)
        (low low' high high' : Z) :
  (low <= low')%Z -> (high <= high')%Z ->
  incl (low_revenue_customers df low) (low_revenue_customers df low')
  /\ incl (high_spike_customers df high') (high_spike_customers df high).
Proof.
  intros Hl Hh.
  assert (Ql : inject_Z low <= inject_Z low') by (rewrite <- Zle_Qle; exact Hl).
  assert (Qh : inject_Z high <= inject_Z high') by (rewrite <- Zle_Qle; exact Hh).
  unfold low_revenue_customers, high_spike_customers, incl.
  split; intros r Hr; apply filter_In in Hr; destruct Hr as [Hin Hv];
    apply filter_In; (split; [exact Hin|]);
    unfold value_lt, value_gt in *;
    destruct (sales_with_tax r) as [q|]; try discriminate Hv.
  - destruct (q ?= inject_Z low)%Q eqn:E; try discriminate Hv.
    rewrite <- Qlt_alt in E.
    assert (H : q < inject_Z low') by lra. rewrite Qlt_alt in H. rewrite H.
    reflexivity.
  - destruct (q ?= inject_Z high')%Q eqn:E; try discriminate Hv.
    rewrite <- Qgt_alt in E.
    assert (H : inject_Z high < q) by lra. rewrite Qgt_alt in H. rewrite H.
    reflexivity.
Qed.

(** The theorem on [ten_customers], from the defaults to the ends of the
    sliders. *)
Lemma thresholds_are_monotone_ten_customers :
  incl (low_revenue_customers ten_customers 5000)
       (low_revenue_customers ten_customers 100000)
  /\ incl (high_spike_customers ten_customers 1000000)
          (high_spike_customers ten_customers 300000).
Proof.
  apply (thresholds_are_monotone ten_customers 5000 100000 300000 1000000); lia.
Defined.
